(** * Konferencja: the conference-companies API of [src/app.py]

    A shallow embedding of the record transformer, the query builder and the
    route handlers of [src/app.py], with the properties the specification
    states about them.

    Conventions.
    - A Python [str] is the list of its code points ([pystr]); [len], slicing,
      [+] and [==] are then the list operations.
    - A value read from a [sqlite3.Row] is [None], an [int], a [float] or a
      [str] ([pyval]).  BLOB cells are left out: neither the API (JSON carries
      no bytes) nor the data model of the specification produces one.
    - A Python [float] is its IEEE-754 value together with the text the
      interpreter prints for it ([pyfloat]); the printing algorithm itself is
      the interpreter's and is not re-implemented.
    - Code that can raise returns a [result]; the handlers run in a state and
      exception monad over the [world] (the data file, the table, and the
      connections that are open). *)

From Stdlib Require Import ZArith String Ascii List Lia.
From Stdlib Require Import Floats.SpecFloat.
From stdpp Require Import gmap strings list pretty.

Open Scope Z_scope.

(** ** Python values *)

Module Py.

Abbreviation pystr := (list N).

(** An ASCII literal of the source as a [pystr]. *)
Definition str_of (s : string) : pystr :=
  (fun a => N_of_ascii a) <$> list_ascii_of_string s.
Arguments str_of : simpl never.

Definition N_in (c : N) (l : list N) : bool := existsb (N.eqb c) l.

(** Truth value of a string: it is not empty. *)
Definition nonempty (s : pystr) : bool :=
  match s with
  | [] => false
  | _ :: _ => true
  end.

(** The exceptions that occur in the modelled code. *)
Inductive exn :=
| TypeError
| ValueError
| OverflowError
| AttributeError
| ProgrammingError
| UnicodeEncodeError
| HTTPException.

Inductive result (A : Type) :=
| Ok (a : A)
| Raise (e : exn).
Arguments Ok {A} a.
Arguments Raise {A} e.

Definition rbind {A B} (k : A -> result B) (r : result A) : result B :=
  match r with
  | Ok a => k a
  | Raise e => Raise e
  end.

#[global] Instance result_ret : MRet result := @Ok.
#[global] Instance result_bind : MBind result := @rbind.

(** [str.isspace] on one code point: the 29 white-space code points of
    CPython ([Py_UNICODE_ISSPACE]). *)
Definition isspace (c : N) : bool :=
  N_in c [0x9; 0xa; 0xb; 0xc; 0xd; 0x1c; 0x1d; 0x1e; 0x1f; 0x20; 0x85; 0xa0;
          0x1680; 0x2000; 0x2001; 0x2002; 0x2003; 0x2004; 0x2005; 0x2006;
          0x2007; 0x2008; 0x2009; 0x200a; 0x2028; 0x2029; 0x202f; 0x205f;
          0x3000]%N.

Fixpoint lstrip (s : pystr) : pystr :=
  match s with
  | c :: r => if isspace c then lstrip r else s
  | [] => []
  end.

Definition rstrip (s : pystr) : pystr := rev (lstrip (rev s)).

(** [s.strip()] *)
Definition strip (s : pystr) : pystr := rstrip (lstrip s).

(** [s.lower()] on one code point.  Exact below U+0100 and at U+212A (KELVIN
    SIGN, the only code point above U+007F whose lower case is ASCII); other
    cased letters are left as they are, which cannot change whether the
    result equals an ASCII word. *)
Definition lower_char (c : N) : N :=
  (if ((0x41 <=? c) && (c <=? 0x5a))
      || ((0xc0 <=? c) && (c <=? 0xde) && negb (c =? 0xd7))
   then c + 32
   else if c =? 0x212a then 0x6b else c)%N.

Definition lower (s : pystr) : pystr := lower_char <$> s.

(** The code points with decimal value 0 (Unicode 14, category Nd); each
    starts a run of ten digits. *)
Definition decimal_zeros : list N :=
  [0x30; 0x660; 0x6f0; 0x7c0; 0x966; 0x9e6; 0xa66; 0xae6; 0xb66; 0xbe6;
   0xc66; 0xce6; 0xd66; 0xde6; 0xe50; 0xed0; 0xf20; 0x1040; 0x1090; 0x17e0;
   0x1810; 0x1946; 0x19d0; 0x1a80; 0x1a90; 0x1b50; 0x1bb0; 0x1c40; 0x1c50;
   0xa620; 0xa8d0; 0xa900; 0xa9d0; 0xa9f0; 0xaa50; 0xabf0; 0xff10; 0x104a0;
   0x10d30; 0x11066; 0x110f0; 0x11136; 0x111d0; 0x112f0; 0x11450; 0x114d0;
   0x11650; 0x116c0; 0x11730; 0x118e0; 0x11950; 0x11c50; 0x11d50; 0x11da0;
   0x16a60; 0x16ac0; 0x16b50; 0x1d7ce; 0x1d7d8; 0x1d7e2; 0x1d7ec; 0x1d7f6;
   0x1e140; 0x1e2f0; 0x1e950; 0x1fbf0]%N.

Definition decimal_value (c : N) : option Z :=
  match List.find (fun z => (z <=? c) && (c <? z + 10))%N decimal_zeros with
  | Some z => Some (Z.of_N (c - z))
  | None => None
  end.

(** What [int(s)] sees of one code point: CPython keeps a code point below
    127 as it is, turns any other white space into a blank and any other
    decimal digit into its ASCII digit, and rejects the rest. *)
Inductive int_token :=
| TSpace
| TDigit (d : Z)
| TPlus
| TMinus
| TUnderscore
| TOther.

Definition int_token_of (c : N) : int_token :=
  if (c <? 127)%N then
    if N_in c [0x9; 0xa; 0xb; 0xc; 0xd; 0x20]%N then TSpace
    else if ((0x30 <=? c) && (c <=? 0x39))%N then TDigit (Z.of_N (c - 0x30))
    else if (c =? 0x2b)%N then TPlus
    else if (c =? 0x2d)%N then TMinus
    else if (c =? 0x5f)%N then TUnderscore
    else TOther
  else if isspace c then TSpace
  else match decimal_value c with
       | Some d => TDigit d
       | None => TOther
       end.

Fixpoint skip_spaces (l : list int_token) : list int_token :=
  match l with
  | TSpace :: r => skip_spaces r
  | _ => l
  end.

(** The digits after the first one, single underscores allowed between two
    digits: the value, the number of digits, and what follows. *)
Fixpoint more_digits (l : list int_token) (acc : Z) (n : nat)
  : Z * nat * list int_token :=
  match l with
  | TDigit d :: r => more_digits r (10 * acc + d) (S n)
  | TUnderscore :: TDigit d :: r => more_digits r (10 * acc + d) (S n)
  | _ => (acc, n, l)
  end.

(** [sys.get_int_max_str_digits()], 4300 by default. *)
Definition int_max_str_digits : nat := 4300.

Definition unsigned_literal (l : list int_token) : result Z :=
  match l with
  | TDigit d :: r =>
      let '(v, n, rest) := more_digits r d 1 in
      match skip_spaces rest with
      | [] => if (n <=? int_max_str_digits)%nat then Ok v else Raise ValueError
      | _ => Raise ValueError
      end
  | _ => Raise ValueError
  end.

(** [int(s)] for a string [s], base 10. *)
Definition int_of_str (s : pystr) : result Z :=
  match skip_spaces (int_token_of <$> s) with
  | TPlus :: r => unsigned_literal r
  | TMinus :: r => v ← unsigned_literal r; Ok (- v)
  | l => unsigned_literal l
  end.

(** A [float]: the value and its printed form. *)
Record pyfloat := PyFloat { fval : spec_float; frepr : pystr }.

(** [int(x)] for a float: truncation toward zero; infinities and NaN raise. *)
Definition int_of_float (x : spec_float) : result Z :=
  match x with
  | S754_zero _ => Ok 0
  | S754_infinity _ => Raise OverflowError
  | S754_nan => Raise ValueError
  | S754_finite s m e =>
      let mag := Z.shiftl (Z.pos m) e in
      Ok (if s then - mag else mag)
  end.

Definition float_is_nan (x : spec_float) : bool :=
  match x with
  | S754_nan => true
  | _ => false
  end.

Definition float_is_zero (x : spec_float) : bool :=
  match x with
  | S754_zero _ => true
  | _ => false
  end.

(** [float('inf')], which is also what [1e999] reads as. *)
Definition float_inf : pyfloat := PyFloat (S754_infinity false) (str_of "inf").

(** The value of a cell of a [sqlite3.Row], and of the fields made from it. *)
Inductive pyval :=
| PNone
| PInt (z : Z)
| PFloat (x : pyfloat)
| PStr (s : pystr).

(** Truth value of [v] in a condition. *)
Definition truthy (v : pyval) : bool :=
  match v with
  | PNone => false
  | PInt z => negb (z =? 0)
  | PFloat x => negb (float_is_zero (fval x))
  | PStr s => nonempty s
  end.

(** [str(v)] *)
Definition py_str (v : pyval) : pystr :=
  match v with
  | PNone => str_of "None"
  | PInt z => str_of (pretty z)
  | PFloat x => frepr x
  | PStr s => s
  end.

(** [int(v)] *)
Definition py_int (v : pyval) : result Z :=
  match v with
  | PNone => Raise TypeError
  | PInt z => Ok z
  | PFloat x => int_of_float (fval x)
  | PStr s => int_of_str s
  end.

(** [a or b] *)
Definition py_or (a b : pyval) : pyval := if truthy a then a else b.

(** [v[:n]] *)
Definition slice_to (n : nat) (v : pyval) : result pyval :=
  match v with
  | PStr s => Ok (PStr (take n s))
  | _ => Raise TypeError
  end.

(** [a + b] where [b] is a string *)
Definition add_str (a : pyval) (b : pystr) : result pyval :=
  match a with
  | PStr s => Ok (PStr (s ++ b))
  | _ => Raise TypeError
  end.

End Py.
Export Py.

(** ** The record transformer ([transform_company_data], lines 140-180) *)

Module Transformer.

(** [dict(row)]: the columns of the row by name. *)
Abbreviation row := (gmap string pyval).

(** [row_dict.get(key)] *)
Definition dict_get (row_dict : row) (key : string) : pyval :=
  default PNone (row_dict !! key).

(** [row_dict.get(key, dflt)] *)
Definition dict_get_or (row_dict : row) (key : string) (dflt : pyval) : pyval :=
  default dflt (row_dict !! key).

(** The record the API returns for one company. *)
Record company := Company {
  c_id : pyval;
  c_name : pyval;
  c_boothNumber : pyval;
  c_country : pyval;
  c_positions : list pystr;
  c_shortDescription : pyval;
  c_description : pyval;
  c_problems : pyval;
  c_opportunities : pyval;
  c_rarity : Z;
  c_hooks : list pystr
}.

Definition hook_keys : list string := ["zaczepka1"; "zaczepka2"; "zaczepka3"].

(** One turn of the loop of lines 146-149. *)
Definition hook_step (row_dict : row) (hooks : list pystr) (hook_key : string)
  : list pystr :=
  let hook_value := dict_get row_dict hook_key in
  if truthy hook_value && nonempty (strip (py_str hook_value))
  then hooks ++ [strip (py_str hook_value)]
  else hooks.

Definition extract_hooks (row_dict : row) : list pystr :=
  foldl (hook_step row_dict) [] hook_keys.

(** Lines 153-164: the rarity computed from the raw priority value. *)
Definition rarity_of_priority (priority_value : pyval) : result Z :=
  match priority_value with
  | PNone => Ok 0
  | _ =>
      match py_int priority_value with
      | Ok rarity => Ok (if bool_decide (rarity ∈ [0; 1; 2]) then rarity else 0)
      | Raise ValueError => Ok 0
      | Raise TypeError => Ok 0
      | Raise e => Raise e
      end
  end.

(** ['Sprawdź szczegóły'] *)
Definition fallback_description : pystr :=
  str_of "Sprawd" ++ [0x17a]%N ++ str_of " szczeg" ++ [0xf3; 0x142]%N ++ str_of "y".

(** ['Sprawdź na miejscu'] *)
Definition fixed_position : pystr :=
  str_of "Sprawd" ++ [0x17a]%N ++ str_of " na miejscu".

(** Lines 172-174: the conditional expression of ['shortDescription']. *)
Definition short_description (row_dict : row) : result pyval :=
  let key := "czym_zajmuje_sie_firma" in
  if truthy (dict_get row_dict key)
     && (100 <? length (py_str (dict_get row_dict key)))%nat
  then
    head ← slice_to 100 (dict_get_or row_dict key (PStr []));
    add_str head (str_of "...")
  else Ok (py_or (dict_get_or row_dict key (PStr [])) (PStr fallback_description)).

Definition transform_company_data (row_dict : row) : result company :=
  let hooks := extract_hooks row_dict in
  let priority_value := dict_get row_dict "czy_warto_sie_zainteresowac" in
  rarity ← rarity_of_priority priority_value;
  short ← short_description row_dict;
  Ok {| c_id := dict_get row_dict "id";
        c_name := dict_get_or row_dict "company" (PStr []);
        c_boothNumber := dict_get_or row_dict "stand" (PStr []);
        c_country := dict_get_or row_dict "country" (PStr []);
        c_positions := [fixed_position];
        c_shortDescription := short;
        c_description := dict_get_or row_dict "czym_zajmuje_sie_firma" (PStr []);
        c_problems := dict_get_or row_dict "problemy_i_wyzwania" (PStr []);
        c_opportunities := dict_get_or row_dict "mozliwosci_AI_i_danych" (PStr []);
        c_rarity := rarity;
        c_hooks := hooks |}.

(** *** The derivation rules as the specification words them *)

(** A string made of white space only (the empty string included). *)
Definition whitespace_only (s : pystr) : bool := forallb isspace s.

(** What one hook column contributes: the trimmed text of its value, unless
    the column is missing or null, or its text is empty or white space
    only.  A number is read by its printed form. *)
Definition kept_hook (row_dict : row) (key : string) : list pystr :=
  match row_dict !! key with
  | None | Some PNone => []
  | Some v => if whitespace_only (py_str v) then [] else [strip (py_str v)]
  end.

Definition spec_hooks (row_dict : row) : list pystr :=
  kept_hook row_dict "zaczepka1" ++ kept_hook row_dict "zaczepka2"
  ++ kept_hook row_dict "zaczepka3".

(** The column holds the number zero ([0], [0.0] or [-0.0]). *)
Definition zero_hook (row_dict : row) (key : string) : bool :=
  match row_dict !! key with
  | Some (PInt z) => z =? 0
  | Some (PFloat x) => float_is_zero (fval x)
  | _ => false
  end.

(** The same rule with one more case: a column that holds the number zero
    contributes nothing either. *)
Definition nonzero_hook (row_dict : row) (key : string) : list pystr :=
  if zero_hook row_dict key then [] else kept_hook row_dict key.

(** The column holds text, null, or is missing. *)
Definition textual (row_dict : row) (key : string) : Prop :=
  match row_dict !! key with
  | Some (PStr _) | Some PNone | None => True
  | _ => False
  end.

(** The text of a column: [None] when it is null or missing. *)
Definition cell_text (row_dict : row) (key : string) : option pystr :=
  match row_dict !! key with
  | Some (PStr s) => Some s
  | _ => None
  end.

(** The short description of a business description [d] ([None] for null):
    its first 100 characters and an ellipsis when it is longer, the text
    itself when it is not empty, the placeholder otherwise. *)
Definition spec_short_description (d : option pystr) : pystr :=
  match d with
  | Some s =>
      if (100 <? length s)%nat then take 100 s ++ str_of "..."
      else if nonempty s then s else fallback_description
  | None => fallback_description
  end.

(** The rarity of a raw priority value: 0, 1 and 2, and what reads as one
    of them, are kept; everything else is 0. *)
Definition spec_rarity (priority_value : pyval) : Z :=
  match py_int priority_value with
  | Ok 0 => 0
  | Ok 1 => 1
  | Ok 2 => 2
  | _ => 0
  end.

(** An infinite float. *)
Definition infinite (v : pyval) : bool :=
  match v with
  | PFloat x =>
      match fval x with
      | S754_infinity _ => true
      | _ => false
      end
  | _ => false
  end.

(** Rows used as examples. *)
Definition hooks_example : row :=
  {[ "zaczepka1" := PStr (str_of "");
     "zaczepka2" := PStr (str_of "  ");
     "zaczepka3" := PStr (str_of "Ask about pricing") ]}.

Definition zero_hook_example : row :=
  {[ "zaczepka1" := PInt 0;
     "zaczepka2" := PStr (str_of "Ask about pricing") ]}.

Definition long_description_example : row :=
  {[ "czym_zajmuje_sie_firma" := PStr (repeat 0x61%N 150) ]}.

Definition null_columns_example : row :=
  {[ "company" := PNone; "stand" := PNone; "country" := PNone ]}.

Definition infinite_priority_example : row :=
  {[ "id" := PInt 1;
     "company" := PStr (str_of "Acme");
     "czy_warto_sie_zainteresowac" := PFloat float_inf ]}.

End Transformer.
Export Transformer.

(** ** The query builder (lines 276-309 of [get_companies]) *)

Module QueryBuilder.

(** [request.args]: each parameter is given or not. *)
Record query_args := QueryArgs {
  args_search : option pystr;
  args_searchBy : option pystr;
  args_priority : option pystr
}.

Definition priority_column : string := "czy_warto_sie_zainteresowac".

Definition yes_tokens : list pystr :=
  str_of <$> ["tak"; "yes"; "1"; "true"; "warto"].

Definition no_tokens : list pystr :=
  str_of <$> ["nie"; "no"; "0"; "false"].

Definition yes_condition : string :=
  "(czy_warto_sie_zainteresowac = '1' OR czy_warto_sie_zainteresowac = 'tak' OR czy_warto_sie_zainteresowac = 'yes')".

Definition no_condition : string :=
  "(czy_warto_sie_zainteresowac = '0' OR czy_warto_sie_zainteresowac = 'nie' OR czy_warto_sie_zainteresowac = 'no')".

(** [f"%{search}%"] *)
Definition like_pattern (search : pystr) : pystr :=
  str_of "%" ++ search ++ str_of "%".

(** Lines 287-293: what the search adds to [conditions] and [params]. *)
Definition search_conditions (search search_by : pystr)
  : list string * list pystr :=
  if nonempty search then
    if bool_decide (search_by = str_of "company")
    then (["company LIKE ?"], [like_pattern search])
    else if bool_decide (search_by = str_of "stand")
    then (["stand LIKE ?"], [like_pattern search])
    else ([], [])
  else ([], []).

(** Lines 296-304: what the priority filter adds. *)
Definition priority_conditions (priority : pystr)
  : list string * list pystr :=
  if nonempty priority then
    if bool_decide (lower priority ∈ yes_tokens)
    then ([yes_condition], [])
    else if bool_decide (lower priority ∈ no_tokens)
    then ([no_condition], [])
    else (["czy_warto_sie_zainteresowac = ?"], [priority])
  else ([], []).

(** [sep.join(l)] *)
Fixpoint join (sep : string) (l : list string) : string :=
  match l with
  | [] => ""
  | [x] => x
  | x :: r => x +:+ sep +:+ join sep r
  end.

(** The lists [conditions] and [params] when line 306 is reached. *)
Definition build_conditions (a : query_args) : list string * list pystr :=
  let search := strip (default [] (args_search a)) in
  let search_by := default (str_of "company") (args_searchBy a) in
  let priority := default [] (args_priority a) in
  let s := search_conditions search search_by in
  let p := priority_conditions priority in
  (s.1 ++ p.1, s.2 ++ p.2).

(** The statement and the parameters passed to [cursor.execute]. *)
Definition build_query (a : query_args) : string * list pystr :=
  let '(conditions, params) := build_conditions a in
  let query := "SELECT * FROM companies" in
  let query :=
    match conditions with
    | [] => query
    | _ => query +:+ " WHERE " +:+ join " AND " conditions
    end in
  (query +:+ " ORDER BY company ASC", params).

(** *** The priority predicate as the specification words it *)

(** "column = 'literal'" *)
Definition equals_literal (column literal : string) : string :=
  column +:+ " = '" +:+ literal +:+ "'".

(** The disjunction matching any of the stored representations [literals]. *)
Definition any_of (column : string) (literals : list string) : string :=
  "(" +:+ join " OR " (equals_literal column <$> literals) +:+ ")".

(** "column = ?": exact match against the bound parameter. *)
Definition equals_parameter (column : string) : string := column +:+ " = ?".

(** "column LIKE ?" *)
Definition like_parameter (column : string) : string := column +:+ " LIKE ?".

(** The same request without its search text. *)
Definition without_search (a : query_args) : query_args :=
  {| args_search := None;
     args_searchBy := args_searchBy a;
     args_priority := args_priority a |}.

(** The search field in force: ['company'] unless the request names one. *)
Definition selector (a : query_args) : pystr :=
  default (str_of "company") (args_searchBy a).

(** Requests used as examples. *)
Definition priority_example : query_args :=
  {| args_search := None;
     args_searchBy := None;
     args_priority := Some (str_of "TAK") |}.

Definition search_example : query_args :=
  {| args_search := Some (str_of " acme ");
     args_searchBy := Some (str_of "country");
     args_priority := Some (str_of "nie") |}.

End QueryBuilder.
Export QueryBuilder.

(** ** Requests and responses *)

Module Http.

(** The value [request.get_json()] returns; [JNull] is Python's [None]. *)
Inductive json :=
| JNull
| JBool (b : bool)
| JInt (z : Z)
| JFloat (x : pyfloat)
| JStr (s : pystr)
| JArr (l : list json)
| JObj (m : gmap pystr json).

(** Truth value of [v] in a condition. *)
Definition json_truthy (v : json) : bool :=
  match v with
  | JNull => false
  | JBool b => b
  | JInt z => negb (z =? 0)
  | JFloat x => negb (float_is_zero (fval x))
  | JStr s => nonempty s
  | JArr l => negb (bool_decide (length l = 0%nat))
  | JObj m => negb (bool_decide (size m = 0%nat))
  end.

(** [data.get(key, dflt)]: only a dict has the method. *)
Definition json_get (data : json) (key : string) (dflt : json) : result json :=
  match data with
  | JObj m => Ok (default dflt (m !! str_of key))
  | _ => Raise AttributeError
  end.

(** The texts of the JSON bodies, by name. *)
Inductive message :=
| ConnectionFailed
| CompanyNotFound
| NameRequired
| NoUpdateData
| ServerError (e : exn)
| CompanyAdded
| CompanyUpdated
| CompanyDeleted.

Inductive payload :=
| ErrorBody (m : message)
| CompanyBody (c : company)
| CreatedBody (m : message) (company_id : Z)
| MessageBody (m : message).

(** [jsonify(body), status] *)
Record response := Response { status : Z; body : payload }.

End Http.
Export Http.

(** ** Storage *)

Module Storage.

(** Modelled from the spec: the table [companies] and the engine that holds
    it are not part of [src/].  The table is the list of its rows in
    insertion order; the identifier is an integer the storage assigns on
    insert (one more than the largest in use, 1 for an empty table); no
    other column is constrained, a value is stored as it was bound.  A
    statement takes effect when it is executed; every handler commits right
    after [execute], so nothing is ever left uncommitted. *)
Record world := World {
  db_path_exists : bool;
  connect_ok : bool;
  companies : list row;
  open_connections : nat
}.

Definition set_companies (rows : list row) (w : world) : world :=
  {| db_path_exists := db_path_exists w;
     connect_ok := connect_ok w;
     companies := rows;
     open_connections := open_connections w |}.

Definition set_open_connections (n : nat) (w : world) : world :=
  {| db_path_exists := db_path_exists w;
     connect_ok := connect_ok w;
     companies := companies w;
     open_connections := n |}.

(** Computations that read and change the world and may raise. *)
Record M (A : Type) := MkM { run : world -> result A * world }.
Arguments MkM {A} run.
Arguments run {A} m w.

#[global] Instance M_ret : MRet M := fun A a => MkM (fun w => (Ok a, w)).

#[global] Instance M_bind : MBind M := fun A B k m =>
  MkM (fun w =>
         match run m w with
         | (Ok a, w') => run (k a) w'
         | (Raise e, w') => (Raise e, w')
         end).

(** A pure computation that may raise. *)
Definition lift {A} (r : result A) : M A := MkM (fun w => (r, w)).

(** [get_db_connection()], lines 69-81: [true] for a connection, [false]
    for [None]. *)
Definition get_db_connection : M bool :=
  MkM (fun w =>
         if negb (db_path_exists w) then (Ok false, w)
         else if connect_ok w
              then (Ok true, set_open_connections (S (open_connections w)) w)
              else (Ok false, w)).

(** [connection.close()] *)
Definition connection_close : M () :=
  MkM (fun w => (Ok (), set_open_connections (pred (open_connections w)) w)).

(** [cursor.close()] and [connection.commit()] change nothing here. *)
Definition cursor_close : M () := mret ().
Definition commit : M () := mret ().

(** An integer SQLite can hold. *)
Definition sqlite_integer (z : Z) : bool := (- 2 ^ 63 <=? z) && (z <? 2 ^ 63).

(** A surrogate code point: a text that holds one cannot be encoded as
    UTF-8. *)
Definition surrogate (c : N) : bool := ((55296 <=? c) && (c <=? 57343))%N.

(** Binding a Python value as a statement parameter. *)
Definition bind_param (v : json) : result pyval :=
  match v with
  | JNull => Ok PNone
  | JBool b => Ok (PInt (if b then 1 else 0))
  | JInt z => if sqlite_integer z then Ok (PInt z) else Raise OverflowError
  | JFloat x => Ok (if float_is_nan (fval x) then PNone else PFloat x)
  | JStr s => if existsb surrogate s then Raise UnicodeEncodeError
              else Ok (PStr s)
  | JArr _ => Raise ProgrammingError
  | JObj _ => Raise ProgrammingError
  end.

(** [WHERE id = ?] *)
Definition has_id (company_id : Z) (r : row) : bool :=
  match r !! "id" with
  | Some (PInt z) => z =? company_id
  | _ => false
  end.

Definition row_id (r : row) : option Z :=
  match r !! "id" with
  | Some (PInt z) => Some z
  | _ => None
  end.

Definition next_rowid (rows : list row) : Z :=
  match omap row_id rows with
  | [] => 1
  | z :: zs => foldr Z.max z zs + 1
  end.

(** The columns the INSERT and UPDATE statements name, in their order. *)
Definition written_columns : list string :=
  ["company"; "country"; "stand"; "czym_zajmuje_sie_firma";
   "problemy_i_wyzwania"; "mozliwosci_AI_i_danych"; "zaczepka1"; "zaczepka2";
   "zaczepka3"; "czy_warto_sie_zainteresowac"].

(** The written columns with the bound values. *)
Definition stored_values (values : list pyval) : row :=
  list_to_map (zip written_columns values).
Arguments stored_values : simpl never.

(** The row an INSERT adds. *)
Definition inserted_row (company_id : Z) (values : list pyval) : row :=
  <["id" := PInt company_id]> (stored_values values).
Arguments inserted_row : simpl never.

(** [SELECT * FROM companies WHERE id = ?] and [fetchone()] *)
Definition select_by_id (company_id : Z) : M (option row) :=
  lift (bind_param (JInt company_id));;
  MkM (fun w => (Ok (head (List.filter (has_id company_id) (companies w))), w)).

(** [INSERT INTO companies (...) VALUES (?, ..., ?)]; returns [lastrowid]. *)
Definition execute_insert (params : list json) : M Z :=
  values ← lift (mapM bind_param params);
  MkM (fun w =>
         let new_id := next_rowid (companies w) in
         (Ok new_id,
          set_companies (companies w ++ [inserted_row new_id values]) w)).

(** [UPDATE companies SET ... WHERE id = ?]; returns [rowcount]. *)
Definition execute_update (params : list json) (company_id : Z) : M nat :=
  values ← lift (mapM bind_param params);
  lift (bind_param (JInt company_id));;
  MkM (fun w =>
         let overwrite (r : row) : row :=
           if has_id company_id r
           then stored_values values ∪ r
           else r in
         (Ok (length (List.filter (has_id company_id) (companies w))),
          set_companies (overwrite <$> companies w) w)).

(** [DELETE FROM companies WHERE id = ?]; returns [rowcount]. *)
Definition execute_delete (company_id : Z) : M nat :=
  lift (bind_param (JInt company_id));;
  MkM (fun w =>
         (Ok (length (List.filter (has_id company_id) (companies w))),
          set_companies
            (List.filter (fun r => negb (has_id company_id r)) (companies w)) w)).

End Storage.
Export Storage.

(** ** The route handlers *)

Module Handlers.

(** [try: body  except Exception as e: return handler(e)] *)
Definition try_except (body : M response) (handler : exn -> response)
  : world -> response * world :=
  fun w =>
    match run body w with
    | (Ok r, w') => (r, w')
    | (Raise e, w') => (handler e, w')
    end.

Definition server_error (e : exn) : response :=
  Response 500 (ErrorBody (ServerError e)).

(** [GET /api/companies/<int:company_id>], lines 326-352. *)
Definition get_company (company_id : Z) : world -> response * world :=
  try_except
    (connection ← get_db_connection;
     if negb connection then mret (Response 500 (ErrorBody ConnectionFailed))
     else
       found ← select_by_id company_id;
       match found with
       | None =>
           cursor_close;; connection_close;;
           mret (Response 404 (ErrorBody CompanyNotFound))
       | Some r =>
           company ← lift (transform_company_data r);
           cursor_close;; connection_close;;
           mret (Response 200 (CompanyBody company))
       end)
    server_error.

(** The parameters of the INSERT: nine [data.get(key)] and one with the
    default 0 (lines 376-387). *)
Definition insert_params (data : json) : result (list json) :=
  first ← mapM (fun key => json_get data key JNull)
               (take 9 written_columns);
  priority ← json_get data "czy_warto_sie_zainteresowac" (JInt 0);
  Ok (first ++ [priority]).
Arguments insert_params : simpl never.

(** The parameters of the UPDATE before the id (lines 429-439). *)
Definition update_params (data : json) : result (list json) :=
  mapM (fun key => json_get data key JNull) written_columns.
Arguments update_params : simpl never.

(** [POST /api/companies], lines 354-404; [body] is what
    [request.get_json()] does. *)
Definition add_company (body : result json) : world -> response * world :=
  try_except
    (data ← lift body;
     missing ← (if negb (json_truthy data) then mret true
                else name ← lift (json_get data "company" JNull);
                     mret (negb (json_truthy name)));
     if (missing : bool) then mret (Response 400 (ErrorBody NameRequired))
     else
       connection ← get_db_connection;
       if negb connection then mret (Response 500 (ErrorBody ConnectionFailed))
       else
         params ← lift (insert_params data);
         company_id ← execute_insert params;
         commit;;
         cursor_close;; connection_close;;
         mret (Response 201 (CreatedBody CompanyAdded company_id)))
    server_error.

(** [PUT /api/companies/<int:company_id>], lines 406-458. *)
Definition update_company (company_id : Z) (body : result json)
  : world -> response * world :=
  try_except
    (data ← lift body;
     if negb (json_truthy data) then mret (Response 400 (ErrorBody NoUpdateData))
     else
       connection ← get_db_connection;
       if negb connection then mret (Response 500 (ErrorBody ConnectionFailed))
       else
         params ← lift (update_params data);
         rowcount ← execute_update params company_id;
         commit;;
         if bool_decide (rowcount = 0%nat) then
           cursor_close;; connection_close;;
           mret (Response 404 (ErrorBody CompanyNotFound))
         else
           cursor_close;; connection_close;;
           mret (Response 200 (MessageBody CompanyUpdated)))
    server_error.

(** [DELETE /api/companies/<int:company_id>], lines 460-484. *)
Definition delete_company (company_id : Z) : world -> response * world :=
  try_except
    (connection ← get_db_connection;
     if negb connection then mret (Response 500 (ErrorBody ConnectionFailed))
     else
       rowcount ← execute_delete company_id;
       commit;;
       if bool_decide (rowcount = 0%nat) then
         cursor_close;; connection_close;;
         mret (Response 404 (ErrorBody CompanyNotFound))
       else
         cursor_close;; connection_close;;
         mret (Response 200 (MessageBody CompanyDeleted)))
    server_error.

(** *** The conditions the claims speak of *)

(** The data file is there and a connection can be made. *)
Definition available (w : world) : Prop :=
  db_path_exists w = true /\ connect_ok w = true.

(** No stored row has the id. *)
Definition unknown_id (company_id : Z) (w : world) : Prop :=
  Forall (fun r => has_id company_id r = false) (companies w).

(** An update body the handler can write: a non-empty JSON object whose ten
    fields can be bound. *)
Definition writable (data : json) : Prop :=
  json_truthy data = true
  /\ exists params values,
       update_params data = Ok params /\ mapM bind_param params = Ok values.

(** A create body without a company name: [request.get_json()] gave
    [None] (or a value that is false in a condition, such as an empty
    object), or it gave an object whose [company] is missing or empty
    (false in a condition). *)
Definition lacks_company (data : json) : Prop :=
  json_truthy data = false
  \/ exists m, data = JObj m
               /\ match m !! str_of "company" with
                  | None => True
                  | Some v => json_truthy v = false
                  end.

(** A create body whose stored row the transformer accepts: the priority is
    not an infinite number and the description is text or null. *)
Definition transformable (data : json) : Prop :=
  (forall x,
      json_get data "czy_warto_sie_zainteresowac" (JInt 0) = Ok (JFloat x) ->
      infinite (PFloat x) = false)
  /\ (forall d,
         json_get data "czym_zajmuje_sie_firma" JNull = Ok d ->
         d = JNull \/ exists s, d = JStr s).

(** Worlds and bodies used as examples. *)
Definition idle_world : world :=
  {| db_path_exists := true; connect_ok := true; companies := [];
     open_connections := 0 |}.

Definition one_company_world : world :=
  {| db_path_exists := true; connect_ok := true;
     companies := [ {[ "id" := PInt 1; "company" := PStr (str_of "Acme") ]} ];
     open_connections := 0 |}.

Definition acme_body : json :=
  JObj {[ str_of "company" := JStr (str_of "Acme") ]}.


Definition infinite_priority_body : json :=
  JObj {[ str_of "company" := JStr (str_of "Acme");
          str_of "czy_warto_sie_zainteresowac" := JFloat float_inf ]}.

Definition unbindable_body : json :=
  JObj {[ str_of "company" := JArr [JStr (str_of "Acme")] ]}.

End Handlers.
Export Handlers.

(** ** The list handler ([get_companies], lines 266-324) *)

Module Listing.

(** What [cursor.execute(query, params)] followed by [fetchall()] gives for
    a SELECT over the stored rows.  Evaluating the statement (LIKE, the
    comparisons, the ordering) is the storage engine's; the handler is
    modelled for any engine. *)
Definition sql_engine : Type :=
  string -> list pystr -> list row -> result (list row).

Inductive list_payload :=
| ListError (m : message)
| CompanyList (l : list company).

(** [jsonify(companies)] or [jsonify({'error': ...}), 500] *)
Record list_response := ListResponse {
  list_status : Z;
  list_body : list_payload
}.

Definition fetch_all (engine : sql_engine) (query : string)
           (params : list pystr) : M (list row) :=
  MkM (fun w => (engine query params (companies w), w)).

Definition get_companies (engine : sql_engine) (a : query_args)
  : world -> list_response * world :=
  fun w =>
    match
      run (connection ← get_db_connection;
           if negb connection
           then mret (ListResponse 500 (ListError ConnectionFailed))
           else
             rows ← fetch_all engine (build_query a).1 (build_query a).2;
             companies ← lift (mapM transform_company_data rows);
             cursor_close;; connection_close;;
             mret (ListResponse 200 (CompanyList companies))) w
    with
    | (Ok r, w') => (r, w')
    | (Raise e, w') => (ListResponse 500 (ListError (ServerError e)), w')
    end.

(** An engine used as an example: it returns every stored row, whatever
    the statement. *)
Definition every_row : sql_engine := fun _ _ rows => Ok rows.

End Listing.
Export Listing.

(** ** Start-up: finding the data file (lines 19-64) *)

Module Startup.

(** The working directory as the code sees it: [os.listdir('.')] and
    [os.path.exists]. *)
Record filesystem := FileSystem {
  listdir : list pystr;
  path_exists : pystr -> bool
}.

Definition possible_names : list pystr :=
  str_of <$> ["sqlite"; "sqlite.db"; "sqlite.sqlite"; "sqlite.sqlite3";
              "conference.db"; "companies.db"; "database.db"; "db.sqlite3";
              "database.sqlite"].

(** [s.endswith(suffix)] *)
Definition endswith (s suffix : pystr) : bool :=
  bool_decide (drop (length s - length suffix) s = suffix).

(** The test of line 41. *)
Definition is_sqlite_file (f : pystr) : bool :=
  existsb (endswith f) (str_of <$> [".db"; ".sqlite"; ".sqlite3"])
  || bool_decide (f = str_of "sqlite").

(** [find_database()]; the log lines are left out. *)
Definition find_database (fs : filesystem) : option pystr :=
  let all_files := listdir fs in
  let sqlite_files := List.filter is_sqlite_file all_files in
  match List.find (path_exists fs) possible_names with
  | Some db_name => Some db_name
  | None => List.find (path_exists fs) sqlite_files
  end.

(** Line 64: [find_database() or 'sqlite']. *)
Definition DATABASE_PATH (fs : filesystem) : pystr :=
  match find_database fs with
  | Some name => if nonempty name then name else str_of "sqlite"
  | None => str_of "sqlite"
  end.

(** The world a request meets when the directory is as it was at start-up:
    [get_db_connection] tests the path chosen then. *)
Definition served_from (fs : filesystem) (w : world) : Prop :=
  db_path_exists w = path_exists fs (DATABASE_PATH fs).

(** Directories used as examples. *)
Definition directory_of (names : list pystr) : filesystem :=
  {| listdir := names; path_exists := fun n => bool_decide (n ∈ names) |}.

Definition two_databases : filesystem :=
  directory_of (str_of <$> ["app.py"; "old.sqlite3"; "companies.db"]).

Definition no_database : filesystem :=
  directory_of (str_of <$> ["app.py"; "static"]).

End Startup.
Export Startup.

(** ** More conditions and examples *)

Module Conditions.

(** The ids of the stored rows are pairwise different. *)
Definition ids_unique (w : world) : Prop :=
  NoDup (omap row_id (companies w)).

(** Some stored row has the id. *)
Definition known_id (company_id : Z) (w : world) : Prop :=
  Exists (fun r => has_id company_id r = true) (companies w).

(** The value is a JSON object. *)
Definition is_object (data : json) : bool :=
  match data with
  | JObj _ => true
  | _ => false
  end.

(** An update body whose stored row the transformer accepts. *)
Definition update_transformable (data : json) : Prop :=
  (forall x,
      json_get data "czy_warto_sie_zainteresowac" JNull = Ok (JFloat x) ->
      infinite (PFloat x) = false)
  /\ (forall d,
         json_get data "czym_zajmuje_sie_firma" JNull = Ok d ->
         d = JNull \/ exists s, d = JStr s).

(** What is stored for a field of the body: the bound value of
    [data.get(key, dflt)]. *)
Definition stored_field (data : json) (key : string) (dflt : json)
  : result pyval :=
  v ← json_get data key dflt; bind_param v.

(** The number of ['?'] in a statement. *)
Definition placeholders (query : string) : nat :=
  length (List.filter (fun c => Ascii.eqb c "?"%char)
                      (list_ascii_of_string query)).

(** The statements the query builder can produce. *)
Definition statements : list string :=
  let base := "SELECT * FROM companies" in
  let order := " ORDER BY company ASC" in
  let searches := [[]; ["company LIKE ?"]; ["stand LIKE ?"]] in
  let priorities :=
    [[]; [yes_condition]; [no_condition]; ["czy_warto_sie_zainteresowac = ?"]] in
  s ← searches; p ← priorities;
  [match s ++ p with
   | [] => base +:+ order
   | conditions => base +:+ " WHERE " +:+ join " AND " conditions +:+ order
   end].

Definition two_company_world : world :=
  {| db_path_exists := true; connect_ok := true;
     companies := [ {[ "id" := PInt 1; "company" := PStr (str_of "Acme") ]};
                    {[ "id" := PInt 2; "company" := PStr (str_of "Bolt") ]} ];
     open_connections := 0 |}.

Definition offline_world : world :=
  {| db_path_exists := false; connect_ok := true;
     companies := [ {[ "id" := PInt 1; "company" := PStr (str_of "Acme") ]} ];
     open_connections := 0 |}.

Definition infinite_row_world : world :=
  {| db_path_exists := true; connect_ok := true;
     companies := [ {[ "id" := PInt 1; "company" := PStr (str_of "Acme") ]};
                    infinite_priority_example ];
     open_connections := 0 |}.

End Conditions.
Export Conditions.

(** ** Proof automation *)

(** Unfolds the binds of [result]. *)
Ltac unfold_bind := unfold mbind, result_bind, rbind in *.

(** Unfolds a handler down to the function on worlds it runs. *)
Ltac run_handler :=
  unfold try_except, get_db_connection, select_by_id, execute_insert,
    execute_update, execute_delete, connection_close, cursor_close, commit,
    lift, mbind, mret, M_bind, M_ret; cbn [run].

(** Splits a handler into its paths, innermost test first. *)
Ltac split_paths :=
  repeat (cbn;
          match goal with
          | |- context [match ?x with _ => _ end] =>
              lazymatch x with
              | context [match _ with _ => _ end] => fail
              | _ => destruct x eqn:?
              end
          end).

(** * Properties *)

(** ** White space and trimming *)

Lemma lstrip_nil_iff (s : pystr) : lstrip s = [] <-> forallb isspace s = true.
Proof.
  induction s as [|c r IH]; simpl; [tauto|].
  destruct (isspace c); simpl; [exact IH|].
  split; discriminate.
Qed.

Lemma lstrip_head (s r : pystr) (c : N) : lstrip s = c :: r -> isspace c = false.
Proof.
  induction s as [|a t IH]; simpl; [discriminate|].
  destruct (isspace a) eqn:Ha; [exact IH|].
  intros [= -> _]. exact Ha.
Qed.

Lemma forallb_rev {A} (f : A -> bool) (l : list A) :
  forallb f (rev l) = forallb f l.
Proof.
  apply eq_true_iff_eq. rewrite !forallb_forall.
  split; intros H x Hx; apply H.
  - apply in_rev in Hx. exact Hx.
  - apply in_rev. exact Hx.
Qed.

Lemma strip_nil_iff (s : pystr) : strip s = [] <-> whitespace_only s = true.
Proof.
  unfold strip, rstrip, whitespace_only. split.
  - intros H.
    assert (Hl : lstrip (rev (lstrip s)) = []).
    { destruct (lstrip (rev (lstrip s))) as [|a t]; [reflexivity|].
      simpl in H. destruct (rev t); discriminate. }
    apply lstrip_nil_iff in Hl. rewrite forallb_rev in Hl.
    destruct (lstrip s) as [|c r] eqn:Hs.
    + apply lstrip_nil_iff. exact Hs.
    + apply lstrip_head in Hs. simpl in Hl. rewrite Hs in Hl. discriminate.
  - intros H. apply lstrip_nil_iff in H. rewrite H. reflexivity.
Qed.

Lemma nonempty_strip (s : pystr) : nonempty (strip s) = negb (whitespace_only s).
Proof.
  destruct (whitespace_only s) eqn:Hw; simpl.
  - apply strip_nil_iff in Hw. rewrite Hw. reflexivity.
  - destruct (strip s) eqn:Hs; [|reflexivity].
    apply strip_nil_iff in Hs. congruence.
Qed.

Lemma whitespace_only_empty (s : pystr) :
  whitespace_only s = false -> nonempty s = true.
Proof. destruct s; [discriminate|reflexivity]. Qed.

Lemma lstrip_snoc (l : pystr) (a : N) :
  isspace a = false -> lstrip (l ++ [a]) = lstrip l ++ [a].
Proof.
  intros Ha. induction l as [|x l IH]; simpl.
  - rewrite Ha. reflexivity.
  - destruct (isspace x); [exact IH|reflexivity].
Qed.

(** A trimmed string neither starts nor ends with white space. *)
Lemma strip_trimmed (s : pystr) :
  (forall c r, strip s = c :: r -> isspace c = false)
  /\ (forall c r, strip s = r ++ [c] -> isspace c = false).
Proof.
  unfold strip, rstrip. split; intros c r H.
  - destruct (lstrip s) as [|a t] eqn:Hs; [discriminate|].
    pose proof (lstrip_head _ _ _ Hs) as Ha.
    change (rev (a :: t)) with (rev t ++ [a]) in H.
    rewrite (lstrip_snoc _ _ Ha), rev_app_distr in H.
    simpl in H. injection H as <- _. exact Ha.
  - destruct (lstrip (rev (lstrip s))) as [|b u] eqn:Hr.
    + destruct r; discriminate.
    + pose proof (lstrip_head _ _ _ Hr) as Hb.
      change (rev (b :: u)) with (rev u ++ [b]) in H.
      apply app_inj_tail in H. destruct H as [_ <-]. exact Hb.
Qed.

(** ** The record transformer *)

(** What a returned record is made of. *)
Lemma transform_ok (row_dict : row) (rec : company) :
  transform_company_data row_dict = Ok rec ->
  exists r sd,
    rarity_of_priority (dict_get row_dict "czy_warto_sie_zainteresowac") = Ok r
    /\ short_description row_dict = Ok sd
    /\ c_name rec = dict_get_or row_dict "company" (PStr [])
    /\ c_boothNumber rec = dict_get_or row_dict "stand" (PStr [])
    /\ c_country rec = dict_get_or row_dict "country" (PStr [])
    /\ c_shortDescription rec = sd
    /\ c_rarity rec = r
    /\ c_hooks rec = extract_hooks row_dict.
Proof.
  unfold transform_company_data. unfold_bind.
  destruct (rarity_of_priority _) as [r|e]; [|discriminate].
  destruct (short_description _) as [sd|e]; [|discriminate].
  intros [= <-]. exists r, sd. simpl. repeat split; reflexivity.
Qed.

(** The transformer returns a record exactly when the rarity and the short
    description can be computed. *)
Lemma transform_returns (row_dict : row) (r : Z) (sd : pyval) :
  rarity_of_priority (dict_get row_dict "czy_warto_sie_zainteresowac") = Ok r ->
  short_description row_dict = Ok sd ->
  exists rec, transform_company_data row_dict = Ok rec.
Proof.
  intros Hr Hs. unfold transform_company_data. unfold_bind.
  rewrite Hr, Hs. eexists. reflexivity.
Qed.

Lemma hook_step_nonzero (row_dict : row) (hooks : list pystr) (key : string) :
  hook_step row_dict hooks key = hooks ++ nonzero_hook row_dict key.
Proof.
  unfold hook_step, nonzero_hook, zero_hook, kept_hook, dict_get.
  destruct (row_dict !! key) as [[| z | x | s]|]; cbn [default from_option id truthy];
    try (rewrite app_nil_r; reflexivity).
  - rewrite nonempty_strip.
    destruct (z =? 0); cbn [negb andb]; [rewrite app_nil_r; reflexivity|].
    destruct (whitespace_only _); cbn [negb];
      [rewrite app_nil_r|]; reflexivity.
  - rewrite nonempty_strip.
    destruct (float_is_zero (fval x)); cbn [negb andb];
      [rewrite app_nil_r; reflexivity|].
    destruct (whitespace_only _); cbn [negb];
      [rewrite app_nil_r|]; reflexivity.
  - rewrite nonempty_strip. cbn [py_str].
    destruct (whitespace_only s) eqn:Hw; cbn [negb].
    + rewrite andb_false_r, app_nil_r. reflexivity.
    + rewrite (whitespace_only_empty _ Hw). reflexivity.
Qed.

(** Every hook the specification keeps is trimmed and not empty. *)
Lemma kept_hook_trimmed (row_dict : row) (key : string) (h : pystr) :
  In h (kept_hook row_dict key) ->
  h <> []
  /\ (forall c r, h = c :: r -> isspace c = false)
  /\ (forall c r, h = r ++ [c] -> isspace c = false).
Proof.
  unfold kept_hook.
  destruct (row_dict !! key) as [v|]; [|intros []].
  assert (Hv : In h (if whitespace_only (py_str v) then []
                     else [strip (py_str v)]) ->
               h <> []
               /\ (forall c r, h = c :: r -> isspace c = false)
               /\ (forall c r, h = r ++ [c] -> isspace c = false)).
  { destruct (whitespace_only (py_str v)) eqn:Hw; [intros []|].
    intros [<-|[]]. split.
    - intros H. apply strip_nil_iff in H. congruence.
    - apply strip_trimmed. }
  destruct v; [intros []|exact Hv..].
Qed.

(** C5: for every raw row, the hooks of the transformed record are, in the
    order zaczepka1, zaczepka2, zaczepka3, the trimmed texts of the hook
    columns that are not missing, not null and not the number zero, and
    whose text is neither empty nor white space only.  So when no hook
    column holds the number zero they are exactly the hooks the
    specification describes. *)
Theorem hook_extraction (row_dict : row) :
  extract_hooks row_dict
  = nonzero_hook row_dict "zaczepka1" ++ nonzero_hook row_dict "zaczepka2"
    ++ nonzero_hook row_dict "zaczepka3"
  /\ (forall rec, transform_company_data row_dict = Ok rec ->
                  c_hooks rec = extract_hooks row_dict)
  /\ ((forall key, key ∈ hook_keys -> zero_hook row_dict key = false) ->
      extract_hooks row_dict = spec_hooks row_dict).
Proof.
  assert (He : extract_hooks row_dict
               = nonzero_hook row_dict "zaczepka1"
                 ++ nonzero_hook row_dict "zaczepka2"
                 ++ nonzero_hook row_dict "zaczepka3").
  { unfold extract_hooks, hook_keys. cbn [foldl].
    rewrite !hook_step_nonzero. rewrite app_assoc. reflexivity. }
  split; [exact He|]. split.
  - intros rec Hrec. apply transform_ok in Hrec.
    destruct Hrec as (r & sd & _ & _ & _ & _ & _ & _ & _ & Hh). exact Hh.
  - intros Hz. rewrite He. unfold spec_hooks, nonzero_hook.
    rewrite !Hz by (unfold hook_keys; set_solver). reflexivity.
Qed.

Lemma hook_extraction_witness :
  (forall key, key ∈ hook_keys -> zero_hook hooks_example key = false)
  /\ extract_hooks hooks_example = spec_hooks hooks_example.
Proof.
  assert (Hz : forall key, key ∈ hook_keys ->
                           zero_hook hooks_example key = false).
  { intros key Hk. apply list_elem_of_In in Hk. cbn in Hk.
    destruct Hk as [<-|[<-|[<-|[]]]]; vm_compute; reflexivity. }
  split; [exact Hz|].
  exact (proj2 (proj2 (hook_extraction hooks_example)) Hz).
Defined.

(** A hook column that holds the integer 0 is dropped, although its value is
    neither null nor empty nor white space: read as text it is [0]. *)
Lemma zero_hook_is_dropped :
  spec_hooks zero_hook_example = [str_of "0"; str_of "Ask about pricing"]
  /\ extract_hooks zero_hook_example = [str_of "Ask about pricing"]
  /\ exists rec, transform_company_data zero_hook_example = Ok rec
                 /\ c_hooks rec = [str_of "Ask about pricing"].
Proof.
  split; [vm_compute; reflexivity|]. split; [vm_compute; reflexivity|].
  destruct (transform_company_data zero_hook_example) as [rec|e] eqn:H;
    [|vm_compute in H; discriminate H].
  exists rec. split; [reflexivity|].
  apply transform_ok in H.
  destruct H as (r & sd & _ & _ & _ & _ & _ & _ & _ & Hh).
  rewrite Hh. vm_compute. reflexivity.
Qed.

(** A number other than zero is kept by its printed form, and text is kept
    as the specification says. *)
Example numeric_hooks :
  extract_hooks {[ "zaczepka1" := PInt 5; "zaczepka3" := PStr (str_of " a ") ]}
  = [str_of "5"; str_of "a"].
Proof. vm_compute. reflexivity. Qed.

(** The example of the specification: blanks are dropped, the text stays. *)
Example hooks_of_example :
  extract_hooks hooks_example = [str_of "Ask about pricing"].
Proof. vm_compute. reflexivity. Qed.

Lemma short_description_textual (row_dict : row) :
  textual row_dict "czym_zajmuje_sie_firma" ->
  short_description row_dict
  = Ok (PStr (spec_short_description
                (cell_text row_dict "czym_zajmuje_sie_firma"))).
Proof.
  unfold textual, short_description, cell_text, dict_get, dict_get_or,
    spec_short_description.
  destruct (row_dict !! "czym_zajmuje_sie_firma") as [[| z | x | s]|];
    simpl; try tauto; intros _; try reflexivity.
  destruct s as [|c s]; [reflexivity|].
  simpl nonempty. rewrite andb_true_l.
  destruct (100 <? length (c :: s))%nat; reflexivity.
Qed.

(** C4: for a business description that is text or null, the short
    description is the first 100 characters followed by "..." when the text
    is longer than 100 characters, the text itself when it is not empty and
    at most 100 characters long, and the placeholder when it is empty or
    null. *)
Theorem short_description_rule (row_dict : row) :
  textual row_dict "czym_zajmuje_sie_firma" ->
  let expected :=
    PStr (spec_short_description (cell_text row_dict "czym_zajmuje_sie_firma")) in
  short_description row_dict = Ok expected
  /\ forall rec, transform_company_data row_dict = Ok rec ->
                 c_shortDescription rec = expected.
Proof.
  intros Ht expected.
  pose proof (short_description_textual row_dict Ht) as Hs.
  split; [exact Hs|].
  intros rec Hrec. apply transform_ok in Hrec.
  destruct Hrec as (r & sd & _ & Hsd & _ & _ & _ & Hf & _).
  rewrite Hf. rewrite Hs in Hsd. injection Hsd as <-. reflexivity.
Qed.

Lemma short_description_rule_witness :
  textual long_description_example "czym_zajmuje_sie_firma"
  /\ (let expected :=
        PStr (spec_short_description
                (cell_text long_description_example "czym_zajmuje_sie_firma")) in
      short_description long_description_example = Ok expected
      /\ forall rec, transform_company_data long_description_example = Ok rec ->
                     c_shortDescription rec = expected).
Proof.
  assert (H : textual long_description_example "czym_zajmuje_sie_firma")
    by (vm_compute; exact I).
  split; [exact H|]. exact (short_description_rule long_description_example H).
Defined.

(** The three examples of the specification: 150 characters give 100 and an
    ellipsis, 50 characters give themselves, the empty text the placeholder. *)
Example short_description_examples :
  spec_short_description (Some (repeat 0x61%N 150))
  = repeat 0x61%N 100 ++ str_of "..."
  /\ spec_short_description (Some (repeat 0x61%N 50)) = repeat 0x61%N 50
  /\ spec_short_description (Some []) = fallback_description
  /\ spec_short_description None = fallback_description.
Proof. vm_compute. repeat split; reflexivity. Qed.

(** C10: in a transformed record, name, boothNumber and country are the
    values of the columns company, stand and country whenever the column is
    present, null included; the empty string stands in only for a column
    that is missing from the row. *)
Theorem null_columns_stay_null (row_dict : row) (rec : company) :
  transform_company_data row_dict = Ok rec ->
  (row_dict !! "company" = Some PNone -> c_name rec = PNone)
  /\ (row_dict !! "stand" = Some PNone -> c_boothNumber rec = PNone)
  /\ (row_dict !! "country" = Some PNone -> c_country rec = PNone)
  /\ (forall v, row_dict !! "company" = Some v -> c_name rec = v)
  /\ (forall v, row_dict !! "stand" = Some v -> c_boothNumber rec = v)
  /\ (forall v, row_dict !! "country" = Some v -> c_country rec = v)
  /\ (row_dict !! "company" = None -> c_name rec = PStr [])
  /\ (row_dict !! "stand" = None -> c_boothNumber rec = PStr [])
  /\ (row_dict !! "country" = None -> c_country rec = PStr []).
Proof.
  intros Hrec. apply transform_ok in Hrec.
  destruct Hrec as (r & sd & _ & _ & Hn & Hb & Hc & _).
  rewrite Hn, Hb, Hc. unfold dict_get_or.
  repeat split; intros;
    match goal with H : row_dict !! _ = _ |- _ => rewrite H end; reflexivity.
Qed.

Lemma null_columns_stay_null_witness :
  exists rec,
    transform_company_data null_columns_example = Ok rec
    /\ c_name rec = PNone /\ c_boothNumber rec = PNone /\ c_country rec = PNone.
Proof.
  destruct (transform_company_data null_columns_example) as [rec|e] eqn:H;
    [|vm_compute in H; discriminate].
  exists rec.
  destruct (null_columns_stay_null null_columns_example rec H)
    as (Hn & Hb & Hc & _).
  split; [reflexivity|].
  split; [|split]; [apply Hn|apply Hb|apply Hc]; vm_compute; reflexivity.
Defined.

(** ** Rarity *)

Lemma unsigned_literal_raises (l : list int_token) (e : exn) :
  unsigned_literal l = Raise e -> e = ValueError.
Proof.
  unfold unsigned_literal.
  destruct l as [|[] r]; try (intros [= <-]; reflexivity).
  destruct (more_digits r d 1) as [[v n] rest].
  destruct (skip_spaces rest); [|intros [= <-]; reflexivity].
  destruct (n <=? int_max_str_digits)%nat; [discriminate|].
  intros [= <-]; reflexivity.
Qed.

(** [int(s)] raises nothing but [ValueError]. *)
Lemma int_of_str_raises (s : pystr) (e : exn) :
  int_of_str s = Raise e -> e = ValueError.
Proof.
  unfold int_of_str.
  destruct (skip_spaces (int_token_of <$> s)) as [|t r] eqn:Hs.
  - apply unsigned_literal_raises.
  - destruct t; try apply unsigned_literal_raises.
    unfold_bind. destruct (unsigned_literal r) eqn:Hu; [discriminate|].
    intros [= <-]. eapply unsigned_literal_raises. exact Hu.
Qed.

(** [int(v)] raises [OverflowError] for an infinite float only. *)
Lemma py_int_raises (v : pyval) (e : exn) :
  py_int v = Raise e ->
  (e = TypeError \/ e = ValueError) \/ (e = OverflowError /\ infinite v = true).
Proof.
  destruct v as [| z | [x t] | s]; simpl.
  - intros [= <-]. auto.
  - discriminate.
  - destruct x; simpl; try discriminate; intros [= <-]; auto.
  - intros H. apply int_of_str_raises in H. auto.
Qed.

Lemma clamp_rarity (r : Z) :
  (if bool_decide (r ∈ [0; 1; 2]) then r else 0)
  = match r with 0 => 0 | 1 => 1 | 2 => 2 | _ => 0 end.
Proof.
  case_bool_decide as H.
  - rewrite !elem_of_cons, elem_of_nil in H.
    destruct H as [->|[->|[->|[]]]]; reflexivity.
  - destruct r as [|[[p|p|]|[p|p|]|]|p]; try reflexivity;
      exfalso; apply H; repeat constructor.
Qed.

(** The rarity is the one the specification describes for every raw value
    except an infinite float: 0, 1 and 2, and what [int] reads as one of
    them, are kept, any other value gives 0. *)
Lemma rarity_of_priority_spec (v : pyval) :
  infinite v = false -> rarity_of_priority v = Ok (spec_rarity v).
Proof.
  intros Hv. unfold rarity_of_priority, spec_rarity.
  destruct (py_int v) as [r|e] eqn:Hi.
  - rewrite clamp_rarity. destruct v; try reflexivity. discriminate.
  - apply py_int_raises in Hi.
    destruct Hi as [[-> | ->] | [_ Hinf]]; [| |congruence];
      destruct v; reflexivity.
Qed.

Lemma spec_rarity_range (v : pyval) :
  spec_rarity v = 0 \/ spec_rarity v = 1 \/ spec_rarity v = 2.
Proof.
  unfold spec_rarity.
  destruct (py_int v) as [[|[[p|p|]|[p|p|]|]|p]|e]; auto.
Qed.

(** A priority that is text or null never makes the normalisation raise. *)
Lemma rarity_of_text_returns (s : pystr) :
  rarity_of_priority (PStr s) = Ok (spec_rarity (PStr s))
  /\ rarity_of_priority PNone = Ok 0.
Proof. split; [apply rarity_of_priority_spec|]; reflexivity. Qed.

(** The examples of the specification. *)
Example rarity_examples :
  rarity_of_priority (PInt 0) = Ok 0
  /\ rarity_of_priority (PInt 1) = Ok 1
  /\ rarity_of_priority (PInt 2) = Ok 2
  /\ rarity_of_priority (PStr (str_of "2")) = Ok 2
  /\ rarity_of_priority (PInt 5) = Ok 0
  /\ rarity_of_priority (PStr (str_of "abc")) = Ok 0
  /\ rarity_of_priority PNone = Ok 0.
Proof. vm_compute. repeat split; reflexivity. Qed.

(** C3: at a priority that is an infinite float, [int] raises
    [OverflowError], which lines 162-164 do not catch: the normalisation
    raises instead of giving rarity 0, and so does the transformer. *)
Theorem rarity_of_infinite_priority :
  rarity_of_priority (PFloat float_inf) = Raise OverflowError
  /\ transform_company_data infinite_priority_example = Raise OverflowError.
Proof. split; vm_compute; reflexivity. Qed.

(** ** The query builder *)

Lemma nonempty_true (s : pystr) : s <> [] -> nonempty s = true.
Proof. destruct s; [congruence|reflexivity]. Qed.

(** No word is both a "yes" and a "no". *)
Lemma no_token_not_yes (p : pystr) : p ∈ no_tokens -> p ∉ yes_tokens.
Proof.
  unfold no_tokens. cbn [fmap list_fmap].
  rewrite !elem_of_cons, elem_of_nil.
  intros [->|[->|[->|[->|[]]]]];
    apply (bool_decide_eq_false (_ ∈ yes_tokens)); vm_compute; reflexivity.
Qed.

(** The two fixed conditions of the source are the disjunctions over the
    stored representations. *)
Lemma fixed_conditions :
  yes_condition = any_of priority_column ["1"; "tak"; "yes"]
  /\ no_condition = any_of priority_column ["0"; "nie"; "no"]
  /\ "czy_warto_sie_zainteresowac = ?" = equals_parameter priority_column
  /\ "company LIKE ?" = like_parameter "company"
  /\ "stand LIKE ?" = like_parameter "stand".
Proof. repeat split; vm_compute; reflexivity. Qed.

Lemma priority_conditions_cases (priority : pystr) :
  priority <> [] ->
  (lower priority ∈ yes_tokens ->
   priority_conditions priority
   = ([any_of priority_column ["1"; "tak"; "yes"]], []))
  /\ (lower priority ∈ no_tokens ->
      priority_conditions priority
      = ([any_of priority_column ["0"; "nie"; "no"]], []))
  /\ (lower priority ∉ yes_tokens -> lower priority ∉ no_tokens ->
      priority_conditions priority
      = ([equals_parameter priority_column], [priority])).
Proof.
  intros Hne. unfold priority_conditions. rewrite (nonempty_true _ Hne).
  destruct fixed_conditions as (<- & <- & <- & _).
  split; [|split].
  - intros Hy. rewrite bool_decide_eq_true_2 by exact Hy. reflexivity.
  - intros Hn. rewrite bool_decide_eq_false_2 by (apply no_token_not_yes, Hn).
    rewrite bool_decide_eq_true_2 by exact Hn. reflexivity.
  - intros Hy Hn. rewrite !bool_decide_eq_false_2 by assumption. reflexivity.
Qed.

(** C6: for a non-empty priority token, the condition added after those of
    the search is the disjunction over the stored values '1', 'tak', 'yes'
    when the token in lower case is tak, yes, 1, true or warto, the
    disjunction over '0', 'nie', 'no' when it is nie, no, 0 or false, and
    otherwise an exact match whose parameter is the token as it was given. *)
Theorem priority_filter_expansion (a : query_args) (priority : pystr) :
  args_priority a = Some priority ->
  priority <> [] ->
  let search :=
    search_conditions (strip (default [] (args_search a))) (selector a) in
  (lower priority ∈ yes_tokens ->
   build_conditions a
   = (search.1 ++ [any_of priority_column ["1"; "tak"; "yes"]], search.2 ++ []))
  /\ (lower priority ∈ no_tokens ->
      build_conditions a
      = (search.1 ++ [any_of priority_column ["0"; "nie"; "no"]], search.2 ++ []))
  /\ (lower priority ∉ yes_tokens -> lower priority ∉ no_tokens ->
      build_conditions a
      = (search.1 ++ [equals_parameter priority_column], search.2 ++ [priority])).
Proof.
  intros Hp Hne search. subst search. unfold build_conditions, selector.
  rewrite Hp. simpl default.
  destruct (priority_conditions_cases priority Hne) as (Hy & Hn & Ho).
  split; [|split]; intros.
  - rewrite Hy by assumption. reflexivity.
  - rewrite Hn by assumption. reflexivity.
  - rewrite Ho by assumption. reflexivity.
Qed.

Lemma priority_filter_expansion_witness :
  args_priority priority_example = Some (str_of "TAK")
  /\ str_of "TAK" <> []
  /\ lower (str_of "TAK") ∈ yes_tokens
  /\ build_conditions priority_example
     = ([any_of priority_column ["1"; "tak"; "yes"]], []).
Proof.
  assert (Hp : args_priority priority_example = Some (str_of "TAK"))
    by reflexivity.
  assert (Hne : str_of "TAK" <> []) by discriminate.
  assert (Hy : lower (str_of "TAK") ∈ yes_tokens)
    by (apply (bool_decide_eq_true (_ ∈ yes_tokens)); vm_compute; reflexivity).
  split; [exact Hp|]. split; [exact Hne|]. split; [exact Hy|].
  exact (proj1 (priority_filter_expansion priority_example _ Hp Hne) Hy).
Defined.

(** The statement built for the filter "tak". *)
Example priority_query_example :
  build_query priority_example
  = ("SELECT * FROM companies WHERE (czy_warto_sie_zainteresowac = '1' OR czy_warto_sie_zainteresowac = 'tak' OR czy_warto_sie_zainteresowac = 'yes') ORDER BY company ASC",
     []).
Proof. vm_compute. reflexivity. Qed.

Lemma build_conditions_without_search (a : query_args) :
  build_conditions (without_search a)
  = priority_conditions (default [] (args_priority a)).
Proof.
  unfold build_conditions, without_search. simpl.
  destruct (priority_conditions _). reflexivity.
Qed.

(** C7: for a search text that is not empty once trimmed, the builder puts
    one condition "field LIKE ?" with the parameter "%text%" in front of
    what it builds without the search, on company when the search field is
    company and on stand when it is stand; for any other search field it
    builds exactly what it builds without the search text, so the statement
    and its parameters do not depend on the text. *)
Theorem search_predicate_construction (a : query_args) (text : pystr) :
  strip (default [] (args_search a)) = text ->
  text <> [] ->
  let rest := build_conditions (without_search a) in
  (selector a = str_of "company" ->
   build_conditions a
   = (like_parameter "company" :: rest.1,
      (str_of "%" ++ text ++ str_of "%") :: rest.2))
  /\ (selector a = str_of "stand" ->
      build_conditions a
      = (like_parameter "stand" :: rest.1,
         (str_of "%" ++ text ++ str_of "%") :: rest.2))
  /\ (selector a <> str_of "company" -> selector a <> str_of "stand" ->
      build_conditions a = rest
      /\ build_query a = build_query (without_search a)).
Proof.
  intros Ht Hne rest. subst rest.
  rewrite build_conditions_without_search.
  assert (He : build_conditions a
               = ((search_conditions text (selector a)).1
                    ++ (priority_conditions (default [] (args_priority a))).1,
                  (search_conditions text (selector a)).2
                    ++ (priority_conditions (default [] (args_priority a))).2)).
  { unfold build_conditions, selector. rewrite Ht. reflexivity. }
  destruct fixed_conditions as (_ & _ & _ & <- & <-).
  unfold search_conditions in He. rewrite (nonempty_true _ Hne) in He.
  split; [|split].
  - intros Hs. rewrite He, Hs. reflexivity.
  - intros Hs. rewrite He, Hs. reflexivity.
  - intros H1 H2. rewrite !bool_decide_eq_false_2 in He by assumption.
    assert (Hr : build_conditions a
                 = priority_conditions (default [] (args_priority a))).
    { rewrite He. simpl. destruct (priority_conditions _). reflexivity. }
    split; [exact Hr|].
    unfold build_query. rewrite build_conditions_without_search, Hr.
    reflexivity.
Qed.

Lemma search_predicate_construction_witness :
  strip (default [] (args_search search_example)) = str_of "acme"
  /\ str_of "acme" <> []
  /\ selector search_example <> str_of "company"
  /\ selector search_example <> str_of "stand"
  /\ build_conditions search_example
     = build_conditions (without_search search_example)
  /\ build_query search_example = build_query (without_search search_example).
Proof.
  assert (Ht : strip (default [] (args_search search_example)) = str_of "acme")
    by (vm_compute; reflexivity).
  assert (Hne : str_of "acme" <> []) by discriminate.
  assert (H1 : selector search_example <> str_of "company") by discriminate.
  assert (H2 : selector search_example <> str_of "stand") by discriminate.
  split; [exact Ht|]. split; [exact Hne|]. split; [exact H1|]. split; [exact H2|].
  exact (proj2 (proj2 (search_predicate_construction search_example _ Ht Hne))
           H1 H2).
Defined.

(** ** The route handlers *)




(** The cases the claim lists. *)
Example create_without_company_cases :
  lacks_company JNull
  /\ lacks_company (JObj ∅)
  /\ lacks_company (JObj {[ str_of "company" := JStr [] ]})
  /\ lacks_company (JObj {[ str_of "company" := JNull ]}).
Proof.
  split; [left; reflexivity|]. split; [left; reflexivity|].
  split; right; eexists; (split; [reflexivity|]); vm_compute; reflexivity.
Qed.

Lemma filter_unknown (company_id : Z) (rows : list row) :
  Forall (fun r => has_id company_id r = false) rows ->
  List.filter (has_id company_id) rows = []
  /\ List.filter (fun r => negb (has_id company_id r)) rows = rows.
Proof.
  induction 1 as [|r rows Hr _ [IH1 IH2]]; simpl; [auto|].
  rewrite Hr. simpl. rewrite IH1, IH2. auto.
Qed.

Lemma overwrite_unknown (company_id : Z) (rows : list row) (f : row -> row) :
  Forall (fun r => has_id company_id r = false) rows ->
  (fun r => if has_id company_id r then f r else r) <$> rows = rows.
Proof.
  induction 1 as [|r rows Hr _ IH]; simpl; [reflexivity|].
  rewrite Hr. f_equal. exact IH.
Qed.

(** C8: when the storage is available and the id, an integer SQLite can
    hold, is the id of no stored row, Delete answers 404 and Update, given a
    body it can write, answers 404 too; both leave the world, and so every
    stored row and their number, as it was. *)
Theorem unknown_id_is_not_found (w : world) (company_id : Z) :
  available w ->
  sqlite_integer company_id = true ->
  unknown_id company_id w ->
  delete_company company_id w = (Response 404 (ErrorBody CompanyNotFound), w)
  /\ forall data,
       writable data ->
       update_company company_id (Ok data) w
       = (Response 404 (ErrorBody CompanyNotFound), w).
Proof.
  intros [He Hc] Hid Hu. destruct (filter_unknown _ _ Hu) as [Hf Hk].
  split.
  - unfold delete_company. run_handler. rewrite He, Hc. cbn.
    rewrite Hid. cbn. rewrite Hf, Hk. cbn.
    rewrite bool_decide_eq_true_2 by reflexivity. cbn.
    f_equal. destruct w; reflexivity.
  - intros data (Ht & params & values & Hp & Hv).
    unfold update_company. run_handler. rewrite Ht. cbn.
    rewrite He, Hc. cbn. rewrite Hp. cbn. rewrite Hv. cbn.
    rewrite Hid. cbn. rewrite Hf. cbn.
    rewrite bool_decide_eq_true_2 by reflexivity. cbn.
    rewrite (overwrite_unknown _ _ _ Hu).
    f_equal. destruct w; reflexivity.
Qed.

Lemma unknown_id_is_not_found_witness :
  available one_company_world
  /\ sqlite_integer 7 = true
  /\ unknown_id 7 one_company_world
  /\ writable acme_body
  /\ delete_company 7 one_company_world
     = (Response 404 (ErrorBody CompanyNotFound), one_company_world)
  /\ update_company 7 (Ok acme_body) one_company_world
     = (Response 404 (ErrorBody CompanyNotFound), one_company_world).
Proof.
  assert (Ha : available one_company_world) by (split; reflexivity).
  assert (Hi : sqlite_integer 7 = true) by reflexivity.
  assert (Hu : unknown_id 7 one_company_world).
  { constructor; [vm_compute; reflexivity|constructor]. }
  assert (Hw : writable acme_body).
  { split; [vm_compute; reflexivity|].
    exists (JStr (str_of "Acme") :: repeat JNull 9),
           (PStr (str_of "Acme") :: repeat PNone 9).
    split; vm_compute; reflexivity. }
  split; [exact Ha|]. split; [exact Hi|]. split; [exact Hu|]. split; [exact Hw|].
  destruct (unknown_id_is_not_found one_company_world 7 Ha Hi Hu) as [Hd Hup].
  split; [exact Hd|]. exact (Hup acme_body Hw).
Defined.

(** Update looks at the body before it looks for the row: with an empty
    object as body it answers 400 for an id that no row has. *)
Lemma update_unknown_id_empty_body :
  unknown_id 7 one_company_world
  /\ update_company 7 (Ok (JObj ∅)) one_company_world
     = (Response 400 (ErrorBody NoUpdateData), one_company_world).
Proof.
  split; [|vm_compute; reflexivity].
  constructor; [vm_compute; reflexivity|constructor].
Qed.

(** Delete answers 500 when the data file is missing, whatever the id. *)
Example delete_without_storage :
  delete_company 7 (World false true [] 0)
  = (Response 500 (ErrorBody ConnectionFailed), World false true [] 0).
Proof. vm_compute. reflexivity. Qed.

(** *** Connections *)

(** On every path that does not go through [except], a handler closes the
    connection it opened. *)
Lemma handlers_release_unless_raised (w : world) (company_id : Z)
      (body : result json) :
  let released (out : response * world) :=
    (exists e, out.1 = server_error e)
    \/ open_connections out.2 = open_connections w in
  released (get_company company_id w)
  /\ released (add_company body w)
  /\ released (update_company company_id body w)
  /\ released (delete_company company_id w).
Proof.
  intros released. subst released. cbv beta.
  unfold get_company, add_company, update_company, delete_company.
  run_handler.
  repeat split; split_paths; cbn;
    solve [right; reflexivity | left; eexists; reflexivity].
Qed.

(** C2: an update whose [company] is a JSON array makes [cursor.execute]
    raise after the connection was opened; the handler answers 500 from its
    [except] clause, where nothing closes the connection: one connection is
    still open when the handler returns. *)
Theorem update_leaves_connection_open :
  open_connections idle_world = 0%nat
  /\ (update_company 1 (Ok unbindable_body) idle_world).1
     = Response 500 (ErrorBody (ServerError ProgrammingError))
  /\ open_connections (update_company 1 (Ok unbindable_body) idle_world).2
     = 1%nat.
Proof. repeat split; vm_compute; reflexivity. Qed.

(** The same happens in the other handlers, here in Get for an id SQLite
    cannot hold. *)
Example get_leaves_connection_open :
  get_company (2 ^ 63) idle_world
  = (Response 500 (ErrorBody (ServerError OverflowError)),
     set_open_connections 1 idle_world).
Proof. vm_compute. reflexivity. Qed.

(** *** Create, then Get *)

Lemma foldr_max_upper (z0 : Z) (zs : list Z) (z : Z) :
  z ∈ z0 :: zs -> z <= foldr Z.max z0 zs.
Proof.
  induction zs as [|a zs IH]; simpl.
  - rewrite list_elem_of_singleton. intros ->. lia.
  - rewrite !elem_of_cons. intros [Hz|[Hz|H]].
    + assert (z <= foldr Z.max z0 zs) by (apply IH; rewrite Hz; left). lia.
    + lia.
    + assert (z <= foldr Z.max z0 zs) by (apply IH; right; exact H). lia.
Qed.

(** The id the storage assigns is the id of no row already stored. *)
Lemma next_rowid_fresh (rows : list row) :
  Forall (fun r => has_id (next_rowid rows) r = false) rows.
Proof.
  apply Forall_forall. intros r Hr. unfold has_id.
  destruct (r !! "id") as [[| z | x | s]|] eqn:Hid; try reflexivity.
  apply Z.eqb_neq. intros Hz.
  assert (Hin : z ∈ omap row_id rows).
  { apply list_elem_of_omap. exists r. split; [exact Hr|].
    unfold row_id. rewrite Hid. reflexivity. }
  unfold next_rowid in Hz.
  destruct (omap row_id rows) as [|z0 zs] eqn:Ho.
  - inversion Hin.
  - apply foldr_max_upper in Hin. lia.
Qed.


Lemma mapM_Ok {A B} (f : A -> result B) (l : list A) (vs : list B) :
  mapM f l = Ok vs -> Forall2 (fun a v => f a = Ok v) l vs.
Proof.
  revert vs. induction l as [|a l IH]; intros vs; cbn.
  - intros [= <-]. constructor.
  - unfold_bind. destruct (f a) as [v|e] eqn:Hf; [|discriminate].
    destruct (mapM f l) as [k|e]; [|discriminate].
    intros [= <-]. constructor; [exact Hf|]. apply IH. reflexivity.
Qed.


(** What a 201 from Create says about the world before and after. *)
Lemma add_company_created (w w' : world) (data : json) (msg : message)
      (company_id : Z) :
  add_company (Ok data) w = (Response 201 (CreatedBody msg company_id), w') ->
  exists params values,
    insert_params data = Ok params
    /\ mapM bind_param params = Ok values
    /\ available w
    /\ company_id = next_rowid (companies w)
    /\ w' = set_companies
              (companies w ++ [inserted_row company_id values]) w.
Proof.
  unfold add_company. run_handler.
  split_paths; cbn; try discriminate.
  intros [= <- <- <-]. eexists _, _.
  split; [reflexivity|]. split; [eassumption|].
  split; [split; [destruct (db_path_exists w); [reflexivity|discriminate]|assumption]|].
  split; [reflexivity|].
  destruct w; reflexivity.
Qed.

Lemma has_id_inserted (company_id : Z) (values : list pyval) :
  has_id company_id (inserted_row company_id values) = true.
Proof.
  unfold has_id, inserted_row. rewrite lookup_insert_eq. apply Z.eqb_refl.
Qed.

(** Get by the id just assigned finds the row just inserted. *)
Lemma get_inserted (w : world) (values : list pyval) (company_id : Z) :
  available w ->
  sqlite_integer company_id = true ->
  company_id = next_rowid (companies w) ->
  let w' := set_companies (companies w ++ [inserted_row company_id values]) w in
  get_company company_id w'
  = match transform_company_data (inserted_row company_id values) with
    | Ok c => (Response 200 (CompanyBody c), w')
    | Raise e =>
        (server_error e, set_open_connections (S (open_connections w)) w')
    end.
Proof.
  intros [He Hc] Hint Hid w'. subst w'.
  unfold get_company. run_handler. cbn. rewrite He, Hc. cbn.
  rewrite Hint. cbn. rewrite List.filter_app.
  destruct (filter_unknown _ _ (next_rowid_fresh (companies w))) as [Hf _].
  rewrite <- Hid in Hf. rewrite Hf. cbn.
  rewrite has_id_inserted. cbn.
  destruct (transform_company_data _); reflexivity.
Qed.

Lemma insert_params_obj (m : gmap pystr json) :
  insert_params (JObj m)
  = Ok [default JNull (m !! str_of "company");
        default JNull (m !! str_of "country");
        default JNull (m !! str_of "stand");
        default JNull (m !! str_of "czym_zajmuje_sie_firma");
        default JNull (m !! str_of "problemy_i_wyzwania");
        default JNull (m !! str_of "mozliwosci_AI_i_danych");
        default JNull (m !! str_of "zaczepka1");
        default JNull (m !! str_of "zaczepka2");
        default JNull (m !! str_of "zaczepka3");
        default (JInt 0) (m !! str_of "czy_warto_sie_zainteresowac")].
Proof. reflexivity. Qed.

Lemma inserted_row_lookup (company_id : Z)
      (p1 p2 p3 p4 p5 p6 p7 p8 p9 p10 : pyval) :
  let r := inserted_row company_id [p1; p2; p3; p4; p5; p6; p7; p8; p9; p10] in
  r !! "company" = Some p1
  /\ r !! "czym_zajmuje_sie_firma" = Some p4
  /\ r !! "czy_warto_sie_zainteresowac" = Some p10.
Proof.
  unfold inserted_row, stored_values.
  cbn [zip zip_with written_columns list_to_map foldr fst snd].
  repeat split;
    repeat (rewrite lookup_insert_ne by discriminate); apply lookup_insert_eq.
Qed.

Lemma bind_param_finite (v : json) (p : pyval) :
  bind_param v = Ok p ->
  (forall x, v = JFloat x -> infinite (PFloat x) = false) ->
  infinite p = false.
Proof.
  destruct v as [| b | z | x | s | l | m]; cbn; try discriminate.
  - intros [= <-]. reflexivity.
  - intros [= <-]. reflexivity.
  - destruct (sqlite_integer z); [|discriminate]. intros [= <-]. reflexivity.
  - intros [= <-] H. destruct (float_is_nan (fval x)); [reflexivity|].
    apply H. reflexivity.
  - destruct (existsb surrogate s); [discriminate|].
    intros [= <-]. reflexivity.
Qed.

Lemma bind_param_str (s : pystr) (p : pyval) :
  bind_param (JStr s) = Ok p -> p = PStr s.
Proof.
  cbn. destruct (existsb surrogate s); [discriminate|].
  intros [= <-]. reflexivity.
Qed.

(** Apart from that, Create then Get gives the name back: when Create
    answers 201 for a body whose company is the string [name], whose
    priority is not an infinite number and whose description is text or
    null, Get by the returned id answers 200 with that name. *)
Lemma create_then_get (w w' : world) (data : json) (name : pystr)
      (msg : message) (company_id : Z) :
  add_company (Ok data) w = (Response 201 (CreatedBody msg company_id), w') ->
  json_get data "company" JNull = Ok (JStr name) ->
  sqlite_integer company_id = true ->
  transformable data ->
  exists c,
    get_company company_id w' = (Response 200 (CompanyBody c), w')
    /\ c_name c = PStr name.
Proof.
  intros Hadd Hname Hint [Hprio Hdesc].
  apply add_company_created in Hadd.
  destruct Hadd as (params & values & Hp & Hv & Ha & Hid & ->).
  destruct data as [| | | | | |m]; try discriminate Hname.
  rewrite insert_params_obj in Hp. injection Hp as <-.
  unfold json_get in Hname, Hprio, Hdesc. injection Hname as Hname.
  rewrite Hname in Hv.
  apply mapM_Ok in Hv.
  repeat match goal with
         | H : Forall2 _ (_ :: _) _ |- _ =>
             apply Forall2_cons_inv_l in H; destruct H as (? & ? & ? & H & ->)
         | H : Forall2 _ [] _ |- _ => apply Forall2_nil_inv_l in H; subst
         end.
  apply bind_param_str in H. subst x.
  rewrite get_inserted by auto.
  match goal with
  | |- context [inserted_row ?i ?l] =>
      destruct (inserted_row_lookup i (PStr name) x1 x0 x2 x3 x4 x5 x6 x7 x8)
        as (L1 & L4 & L10);
      set (r := inserted_row i l) in *
  end.
  assert (Hr : rarity_of_priority (dict_get r "czy_warto_sie_zainteresowac")
               = Ok (spec_rarity x8)).
  { unfold dict_get. rewrite L10. cbn [default].
    apply rarity_of_priority_spec.
    apply (bind_param_finite _ _ H8).
    intros f Hf. apply Hprio. rewrite Hf. reflexivity. }
  assert (Ht : textual r "czym_zajmuje_sie_firma").
  { unfold textual. rewrite L4.
    destruct (Hdesc _ eq_refl) as [Hd|[s Hd]]; rewrite Hd in H2.
    - cbn in H2. injection H2 as <-. exact I.
    - apply bind_param_str in H2. rewrite H2. exact I. }
  destruct (transform_returns r _ _ Hr (short_description_textual r Ht))
    as [rec Hrec].
  rewrite Hrec. exists rec. split; [reflexivity|].
  apply transform_ok in Hrec.
  destruct Hrec as (? & ? & _ & _ & Hn & _).
  rewrite Hn. unfold dict_get_or. rewrite L1. reflexivity.
Qed.

(** C1: a company created with the priority 1e999, which Python reads as
    the float infinity, is stored (201, id 1); the Get by that id answers
    500, because the transformer raises [OverflowError] on the stored
    priority. *)
Theorem create_then_get_infinite_priority :
  (add_company (Ok infinite_priority_body) idle_world).1
  = Response 201 (CreatedBody CompanyAdded 1)
  /\ (get_company 1 (add_company (Ok infinite_priority_body) idle_world).2).1
     = Response 500 (ErrorBody (ServerError OverflowError)).
Proof. split; vm_compute; reflexivity. Qed.

(** * Further properties *)

(** ** The record transformer, for any row *)

Lemma rarity_of_priority_value (v : pyval) (r : Z) :
  rarity_of_priority v = Ok r -> r = spec_rarity v.
Proof.
  destruct (infinite v) eqn:Hi.
  - destruct v as [| z | [x t] | s]; try discriminate Hi.
    cbn in Hi. destruct x; try discriminate Hi. discriminate.
  - rewrite (rarity_of_priority_spec v Hi). intros [= <-]. reflexivity.
Qed.

(** X1: the rarity of a transformed record is 0, 1 or 2: it is what [int]
    reads from the raw priority when that is 0, 1 or 2, and 0 otherwise. *)
Theorem rarity_in_range (row_dict : row) (rec : company) :
  transform_company_data row_dict = Ok rec ->
  c_rarity rec = spec_rarity (dict_get row_dict "czy_warto_sie_zainteresowac")
  /\ (c_rarity rec = 0 \/ c_rarity rec = 1 \/ c_rarity rec = 2).
Proof.
  intros Hrec. apply transform_ok in Hrec.
  destruct Hrec as (r & sd & Hr & _ & _ & _ & _ & _ & Hc & _).
  apply rarity_of_priority_value in Hr. rewrite Hc, Hr.
  split; [reflexivity|apply spec_rarity_range].
Qed.

Lemma rarity_in_range_witness :
  exists rec,
    transform_company_data hooks_example = Ok rec
    /\ c_rarity rec = 0.
Proof.
  destruct (transform_company_data hooks_example) as [rec|e] eqn:H;
    [|vm_compute in H; discriminate].
  exists rec. split; [reflexivity|].
  destruct (rarity_in_range hooks_example rec H) as [Hr _].
  rewrite Hr. vm_compute. reflexivity.
Defined.

Lemma rarity_raises (v : pyval) (e : exn) :
  rarity_of_priority v = Raise e -> e = OverflowError /\ infinite v = true.
Proof.
  destruct (infinite v) eqn:Hi.
  - unfold rarity_of_priority.
    destruct v as [| z | [x t] | s]; try discriminate Hi.
    cbn in *. destruct x; try discriminate Hi. cbn. intros [= <-]. auto.
  - rewrite (rarity_of_priority_spec v Hi). discriminate.
Qed.

Lemma short_description_raises (row_dict : row) (e : exn) :
  short_description row_dict = Raise e ->
  e = TypeError
  /\ ~ textual row_dict "czym_zajmuje_sie_firma"
  /\ (100 < length (py_str (dict_get row_dict "czym_zajmuje_sie_firma")))%nat.
Proof.
  unfold short_description, textual, dict_get, dict_get_or. unfold_bind.
  destruct (row_dict !! "czym_zajmuje_sie_firma") as [[| z | x | s]|];
    cbn [default from_option id truthy]; try discriminate.
  - destruct (negb (z =? 0)); cbn [andb]; [|discriminate].
    destruct (100 <? _)%nat eqn:Hl; [|discriminate].
    cbn. intros [= <-]. apply Nat.ltb_lt in Hl. auto.
  - destruct (negb (float_is_zero (fval x))); cbn [andb]; [|discriminate].
    destruct (100 <? _)%nat eqn:Hl; [|discriminate].
    cbn. intros [= <-]. apply Nat.ltb_lt in Hl. auto.
  - destruct (nonempty s); cbn [andb]; [|discriminate].
    destruct (100 <? _)%nat; discriminate.
Qed.

(** X2: the transformer raises in two cases only: [OverflowError] when the
    raw priority is an infinite float, [TypeError] when the description is a
    number whose printed form is longer than 100 characters; for every other
    row, in particular whenever the priority is not an infinite float and
    the description is text, null or missing, it returns a record. *)
Theorem transform_raises_only (row_dict : row) :
  (forall e,
      transform_company_data row_dict = Raise e ->
      (e = OverflowError
       /\ infinite (dict_get row_dict "czy_warto_sie_zainteresowac") = true)
      \/ (e = TypeError
          /\ ~ textual row_dict "czym_zajmuje_sie_firma"
          /\ (100 < length (py_str (dict_get row_dict
                                      "czym_zajmuje_sie_firma")))%nat))
  /\ (infinite (dict_get row_dict "czy_warto_sie_zainteresowac") = false ->
      textual row_dict "czym_zajmuje_sie_firma" ->
      exists rec, transform_company_data row_dict = Ok rec).
Proof.
  split.
  - intros e. unfold transform_company_data. unfold_bind.
    destruct (rarity_of_priority _) as [r|e1] eqn:Hr.
    + destruct (short_description row_dict) as [sd|e2] eqn:Hs; [discriminate|].
      intros [= <-]. right. apply short_description_raises. exact Hs.
    + intros [= <-]. left. apply rarity_raises. exact Hr.
  - intros Hi Ht.
    eapply transform_returns.
    + apply rarity_of_priority_spec. exact Hi.
    + apply short_description_textual. exact Ht.
Qed.

Lemma hook_step_app (row_dict : row) (hooks : list pystr) (key : string) :
  hook_step row_dict hooks key = hooks ++ hook_step row_dict [] key.
Proof.
  unfold hook_step. destruct (_ && _); [reflexivity|].
  rewrite app_nil_r. reflexivity.
Qed.

Lemma hook_step_one (row_dict : row) (key : string) :
  (length (hook_step row_dict [] key) <= 1)%nat
  /\ forall h, h ∈ hook_step row_dict [] key ->
       h <> []
       /\ (forall c r, h = c :: r -> isspace c = false)
       /\ (forall c r, h = r ++ [c] -> isspace c = false).
Proof.
  unfold hook_step.
  destruct (truthy _); cbn [andb]; [|split; [cbn; lia|intros h Hh; inversion Hh]].
  destruct (nonempty (strip _)) eqn:Hn; [|split; [cbn; lia|intros h Hh; inversion Hh]].
  split; [cbn; lia|].
  intros h Hh. apply list_elem_of_singleton in Hh. subst h. split.
  - intros H. rewrite H in Hn. discriminate.
  - apply strip_trimmed.
Qed.

(** X3: whatever the hook columns hold, a transformed record has at most
    three hooks, and each of them is not empty and neither starts nor ends
    with white space. *)
Theorem hooks_are_trimmed (row_dict : row) :
  (length (extract_hooks row_dict) <= 3)%nat
  /\ forall h, h ∈ extract_hooks row_dict ->
       h <> []
       /\ (forall c r, h = c :: r -> isspace c = false)
       /\ (forall c r, h = r ++ [c] -> isspace c = false).
Proof.
  unfold extract_hooks, hook_keys. cbn [foldl].
  rewrite (hook_step_app _ (hook_step _ _ "zaczepka2")).
  rewrite (hook_step_app _ (hook_step _ _ "zaczepka1")).
  destruct (hook_step_one row_dict "zaczepka1") as [L1 T1].
  destruct (hook_step_one row_dict "zaczepka2") as [L2 T2].
  destruct (hook_step_one row_dict "zaczepka3") as [L3 T3].
  split.
  - rewrite !length_app. lia.
  - intros h. rewrite !elem_of_app. intros [[H|H]|H]; auto.
Qed.

Lemma spec_short_description_length (d : option pystr) :
  (0 < length (spec_short_description d) <= 103)%nat.
Proof.
  assert (Hf : length fallback_description = 17%nat) by reflexivity.
  unfold spec_short_description. destruct d as [s|]; [|lia].
  destruct (100 <? length s)%nat eqn:Hl.
  - apply Nat.ltb_lt in Hl. rewrite length_app, length_take.
    change (length (str_of "...")) with 3%nat. lia.
  - apply Nat.ltb_ge in Hl. destruct s; cbn [nonempty]; [lia|].
    cbn [length] in *. lia.
Qed.

(** X4: when the description is text, null or missing, the short
    description of a transformed record is a text of at least one and at
    most 103 characters. *)
Theorem short_description_bounded (row_dict : row) (rec : company) :
  textual row_dict "czym_zajmuje_sie_firma" ->
  transform_company_data row_dict = Ok rec ->
  exists s, c_shortDescription rec = PStr s /\ (0 < length s <= 103)%nat.
Proof.
  intros Ht Hrec. apply transform_ok in Hrec.
  destruct Hrec as (r & sd & _ & Hsd & _ & _ & _ & Hf & _).
  rewrite (short_description_textual _ Ht) in Hsd. injection Hsd as <-.
  eexists. split; [exact Hf|]. apply spec_short_description_length.
Qed.

Lemma short_description_bounded_witness :
  exists rec,
    textual long_description_example "czym_zajmuje_sie_firma"
    /\ transform_company_data long_description_example = Ok rec
    /\ exists s, c_shortDescription rec = PStr s /\ (0 < length s <= 103)%nat.
Proof.
  assert (Ht : textual long_description_example "czym_zajmuje_sie_firma")
    by (vm_compute; exact I).
  destruct (transform_company_data long_description_example) as [rec|e] eqn:H;
    [|vm_compute in H; discriminate].
  exists rec. split; [exact Ht|]. split; [reflexivity|].
  exact (short_description_bounded long_description_example rec Ht H).
Defined.

(** ** The query builder, for any request *)

Lemma search_conditions_cases (search search_by : pystr) :
  search_conditions search search_by = ([], [])
  \/ search_conditions search search_by
     = (["company LIKE ?"], [like_pattern search])
  \/ search_conditions search search_by
     = (["stand LIKE ?"], [like_pattern search]).
Proof.
  unfold search_conditions.
  destruct (nonempty search); [|auto].
  destruct (bool_decide _); [auto|].
  destruct (bool_decide _); auto.
Qed.

Lemma priority_conditions_shapes (priority : pystr) :
  priority_conditions priority = ([], [])
  \/ priority_conditions priority = ([yes_condition], [])
  \/ priority_conditions priority = ([no_condition], [])
  \/ priority_conditions priority
     = (["czy_warto_sie_zainteresowac = ?"], [priority]).
Proof.
  unfold priority_conditions.
  destruct (nonempty priority); [|auto].
  destruct (bool_decide _); [auto|].
  destruct (bool_decide _); auto.
Qed.

Ltac builder_cases a :=
  unfold build_query, build_conditions;
  destruct (search_conditions_cases (strip (default [] (args_search a)))
              (default (str_of "company") (args_searchBy a)))
    as [Hs|[Hs|Hs]];
  destruct (priority_conditions_shapes (default [] (args_priority a)))
    as [Hp|[Hp|[Hp|Hp]]];
  rewrite Hs, Hp.

(** X5: the statement the builder produces has exactly as many ['?'] as
    there are parameters, so [cursor.execute] never meets a wrong number of
    bindings. *)
Theorem placeholders_match_parameters (a : query_args) :
  placeholders (build_query a).1 = length (build_query a).2.
Proof. builder_cases a; vm_compute; reflexivity. Qed.

(** X6: the statement is always one of twelve fixed texts: what the request
    sends (search text, priority token) only ever travels as a parameter,
    never inside the SQL. *)
Theorem statement_is_fixed (a : query_args) :
  (build_query a).1 ∈ statements.
Proof.
  builder_cases a; apply (bool_decide_unpack _); vm_compute; exact I.
Qed.

Lemma build_query_blank_search (a : query_args) :
  whitespace_only (default [] (args_search a)) = true ->
  build_query a = build_query (without_search a).
Proof.
  intros Hw. apply strip_nil_iff in Hw.
  unfold build_query, build_conditions, without_search. cbn [args_search
    args_searchBy args_priority default from_option id].
  rewrite Hw. reflexivity.
Qed.

Lemma build_query_other_selector (a : query_args) :
  selector a <> str_of "company" ->
  selector a <> str_of "stand" ->
  build_query a = build_query (without_search a).
Proof.
  intros H1 H2.
  unfold build_query, build_conditions, without_search, search_conditions.
  fold (selector a).
  rewrite !bool_decide_eq_false_2 by assumption.
  cbn [args_search args_searchBy args_priority default from_option id strip
         lstrip rstrip rev nonempty].
  destruct (nonempty (strip _)); reflexivity.
Qed.

(** X7: a search text of white space only, or a search field other than
    company and stand, changes nothing in the answer of the list handler:
    with any engine, the answer and the world are those of the same request
    without the search text. *)
Theorem search_is_ignored (engine : sql_engine) (a : query_args) (w : world) :
  whitespace_only (default [] (args_search a)) = true
  \/ (selector a <> str_of "company" /\ selector a <> str_of "stand") ->
  get_companies engine a w = get_companies engine (without_search a) w.
Proof.
  intros H. unfold get_companies.
  assert (Hq : build_query a = build_query (without_search a)).
  { destruct H as [H|[H1 H2]];
      [apply build_query_blank_search|apply build_query_other_selector];
      assumption. }
  rewrite Hq. reflexivity.
Qed.

Lemma search_is_ignored_witness :
  (selector search_example <> str_of "company"
   /\ selector search_example <> str_of "stand")
  /\ get_companies every_row search_example two_company_world
     = get_companies every_row (without_search search_example)
         two_company_world.
Proof.
  assert (H : selector search_example <> str_of "company"
              /\ selector search_example <> str_of "stand")
    by (split; discriminate).
  split; [exact H|].
  exact (search_is_ignored every_row search_example two_company_world
           (or_intror H)).
Defined.

(** ** The list handler *)

Lemma mapM_raises {A B} (f : A -> result B) (l : list A) (x : A) (e : exn) :
  x ∈ l -> f x = Raise e -> exists e', mapM f l = Raise e'.
Proof.
  intros Hin Hf. induction l as [|a l IH]; [inversion Hin|].
  cbn. unfold_bind. destruct (f a) as [v|e1] eqn:Ha; [|eauto].
  apply elem_of_cons in Hin. destruct Hin as [->|Hin]; [congruence|].
  destruct (IH Hin) as [e' He']. rewrite He'. eauto.
Qed.

(** X8: one row the transformer rejects makes the whole list fail: when
    the engine returns a row on which [transform_company_data] raises, the
    list handler answers 500, returns no company at all, and leaves its
    connection open. *)
Theorem one_bad_row_fails_the_list (engine : sql_engine) (a : query_args)
        (w : world) (rows : list row) (r : row) (e : exn) :
  available w ->
  engine (build_query a).1 (build_query a).2 (companies w) = Ok rows ->
  r ∈ rows ->
  transform_company_data r = Raise e ->
  exists e',
    get_companies engine a w
    = (ListResponse 500 (ListError (ServerError e')),
       set_open_connections (S (open_connections w)) w).
Proof.
  intros [He Hc] Hrows Hin Hr.
  destruct (mapM_raises _ _ _ _ Hin Hr) as [e' He'].
  exists e'. unfold get_companies, fetch_all.
  destruct (build_query a) as [query params]. cbn [fst snd] in *.
  run_handler.
  rewrite He, Hc. cbn. rewrite Hrows. cbn. rewrite He'. reflexivity.
Qed.

Lemma one_bad_row_fails_the_list_witness :
  exists e',
    get_companies every_row priority_example infinite_row_world
    = (ListResponse 500 (ListError (ServerError e')),
       set_open_connections 1 infinite_row_world).
Proof.
  assert (Ha : available infinite_row_world) by (split; reflexivity).
  assert (Hin : infinite_priority_example
                ∈ companies infinite_row_world) by (right; left).
  assert (Hr : transform_company_data infinite_priority_example
               = Raise OverflowError) by (vm_compute; reflexivity).
  exact (one_bad_row_fails_the_list every_row priority_example
           infinite_row_world _ _ _ Ha eq_refl Hin Hr).
Defined.

(** X9: the list handler never changes the stored rows; it answers 200 or
    500 only; it answers 200 exactly with the transformed rows the engine
    returned, in the engine's order, and then it has closed its
    connection. *)
Theorem list_handler_reads_only (engine : sql_engine) (a : query_args)
        (w : world) :
  let out := get_companies engine a w in
  companies out.2 = companies w
  /\ (list_status out.1 = 200 \/ list_status out.1 = 500)
  /\ (list_status out.1 = 200 ->
      exists rows cs,
        engine (build_query a).1 (build_query a).2 (companies w) = Ok rows
        /\ mapM transform_company_data rows = Ok cs
        /\ list_body out.1 = CompanyList cs
        /\ out.2 = w).
Proof.
  unfold get_companies, fetch_all.
  destruct (build_query a) as [query params]. cbn [fst snd].
  run_handler.
  destruct (db_path_exists w) eqn:He; cbn;
    [|split; [reflexivity|split; [auto|discriminate]]].
  destruct (connect_ok w) eqn:Hc; cbn;
    [|split; [reflexivity|split; [auto|discriminate]]].
  destruct (engine _ _ _) as [rows|e] eqn:Hrows; cbn;
    [|split; [reflexivity|split; [auto|discriminate]]].
  destruct (mapM transform_company_data rows) as [cs|e] eqn:Hcs; cbn;
    [|split; [reflexivity|split; [auto|discriminate]]].
  split; [reflexivity|]. split; [auto|].
  intros _. exists rows, cs.
  split; [reflexivity|]. split; [exact Hcs|]. split; [reflexivity|].
  destruct w; reflexivity.
Qed.

(** ** The handlers on any request *)

Lemma filter_none {A} (f : A -> bool) (l : list A) :
  length (List.filter f l) = 0%nat -> Forall (fun x => f x = false) l.
Proof.
  induction l as [|x l IH]; cbn; [constructor|].
  destruct (f x) eqn:Hx; [discriminate|].
  intros H. constructor; [exact Hx|apply IH; exact H].
Qed.

Lemma get_company_unknown (w : world) (company_id : Z) :
  available w ->
  sqlite_integer company_id = true ->
  unknown_id company_id w ->
  get_company company_id w = (Response 404 (ErrorBody CompanyNotFound), w).
Proof.
  intros [He Hc] Hid Hu. destruct (filter_unknown _ _ Hu) as [Hf _].
  unfold get_company. run_handler. rewrite He, Hc. cbn.
  rewrite Hid. cbn. rewrite Hf. cbn.
  f_equal. destruct w; reflexivity.
Qed.

Lemma delete_company_unknown (w : world) (company_id : Z) :
  available w ->
  sqlite_integer company_id = true ->
  unknown_id company_id w ->
  delete_company company_id w
  = (Response 404 (ErrorBody CompanyNotFound), w).
Proof.
  intros [He Hc] Hid Hu. destruct (filter_unknown _ _ Hu) as [Hf Hk].
  unfold delete_company. run_handler. rewrite He, Hc. cbn.
  rewrite Hid. cbn. rewrite Hf, Hk. cbn.
  rewrite bool_decide_eq_true_2 by reflexivity. cbn.
  f_equal. destruct w; reflexivity.
Qed.

(** X10: when the storage is available, Get by an id SQLite can hold that
    no stored row has answers 404 and leaves the world as it was. *)
Theorem get_unknown_id (w : world) (company_id : Z) :
  available w ->
  sqlite_integer company_id = true ->
  unknown_id company_id w ->
  get_company company_id w = (Response 404 (ErrorBody CompanyNotFound), w).
Proof. apply get_company_unknown. Qed.

Lemma get_unknown_id_witness :
  available one_company_world
  /\ sqlite_integer 7 = true
  /\ unknown_id 7 one_company_world
  /\ get_company 7 one_company_world
     = (Response 404 (ErrorBody CompanyNotFound), one_company_world).
Proof.
  assert (Ha : available one_company_world) by (split; reflexivity).
  assert (Hi : sqlite_integer 7 = true) by reflexivity.
  assert (Hu : unknown_id 7 one_company_world).
  { constructor; [vm_compute; reflexivity|constructor]. }
  split; [exact Ha|]. split; [exact Hi|]. split; [exact Hu|].
  exact (get_unknown_id one_company_world 7 Ha Hi Hu).
Defined.

(** X11: only a successful write changes the stored rows: Get never
    changes them, and Create, Update and Delete leave them exactly as they
    were unless they answer 201, 200 and 200. *)
Theorem failed_requests_change_nothing (w : world) (company_id : Z)
        (body : result json) :
  companies (get_company company_id w).2 = companies w
  /\ (status (add_company body w).1 <> 201 ->
      companies (add_company body w).2 = companies w)
  /\ (status (update_company company_id body w).1 <> 200 ->
      companies (update_company company_id body w).2 = companies w)
  /\ (status (delete_company company_id w).1 <> 200 ->
      companies (delete_company company_id w).2 = companies w).
Proof.
  unfold get_company, add_company, update_company, delete_company.
  run_handler.
  split; [|split; [|split]].
  - split_paths; reflexivity.
  - split_paths; cbn; solve [reflexivity | intros H; exfalso; apply H; reflexivity].
  - split_paths; cbn;
      try solve [reflexivity | intros H; exfalso; apply H; reflexivity].
    intros _.
    match goal with
    | H : bool_decide (_ = 0%nat) = true |- _ =>
        apply bool_decide_eq_true in H; apply filter_none in H;
        apply overwrite_unknown; exact H
    end.
  - split_paths; cbn;
      try solve [reflexivity | intros H; exfalso; apply H; reflexivity].
    intros _.
    match goal with
    | H : bool_decide (_ = 0%nat) = true |- _ =>
        apply bool_decide_eq_true in H; apply filter_none in H;
        apply filter_unknown; exact H
    end.
Qed.

(** X12: a handler leaves at most one connection open, and none unless it
    answers from its [except] clause. *)
Theorem handlers_leak_at_most_one (w : world) (company_id : Z)
        (body : result json) :
  let accounted (out : response * world) :=
    open_connections out.2 = open_connections w
    \/ (open_connections out.2 = S (open_connections w)
        /\ exists e, out.1 = server_error e) in
  accounted (get_company company_id w)
  /\ accounted (add_company body w)
  /\ accounted (update_company company_id body w)
  /\ accounted (delete_company company_id w).
Proof.
  intros accounted. subst accounted. cbv beta.
  unfold get_company, add_company, update_company, delete_company.
  run_handler.
  repeat split; split_paths; cbn;
    solve [left; reflexivity
          | right; split; [reflexivity|eexists; reflexivity]].
Qed.

(** X13: the status codes each handler can answer: Get 200, 404 or 500;
    Create 201, 400 or 500; Update 200, 400, 404 or 500; Delete 200, 404 or
    500. *)
Theorem handler_status_codes (w : world) (company_id : Z)
        (body : result json) :
  status (get_company company_id w).1 ∈ [200; 404; 500]
  /\ status (add_company body w).1 ∈ [201; 400; 500]
  /\ status (update_company company_id body w).1 ∈ [200; 400; 404; 500]
  /\ status (delete_company company_id w).1 ∈ [200; 404; 500].
Proof.
  unfold get_company, add_company, update_company, delete_company.
  run_handler.
  repeat split; split_paths; cbn; apply (bool_decide_unpack _); exact I.
Qed.

Lemma no_storage_refused (w : world) (company_id : Z) (data : json) :
  db_path_exists w = false \/ connect_ok w = false ->
  let refused := (Response 500 (ErrorBody ConnectionFailed), w) in
  get_company company_id w = refused
  /\ delete_company company_id w = refused
  /\ (json_truthy data = true ->
      update_company company_id (Ok data) w = refused)
  /\ (json_truthy data = true ->
      (exists name, json_get data "company" JNull = Ok name
                    /\ json_truthy name = true) ->
      add_company (Ok data) w = refused).
Proof.
  intros Hoff refused. subst refused.
  assert (Hc : run get_db_connection w = (Ok false, w)).
  { unfold get_db_connection. cbn.
    destruct Hoff as [H|H]; rewrite H; [reflexivity|].
    destruct (db_path_exists w); reflexivity. }
  unfold get_company, add_company, update_company, delete_company.
  unfold try_except, mbind, mret, M_bind, M_ret, lift. cbn [run].
  split; [|split; [|split]].
  - rewrite Hc. reflexivity.
  - rewrite Hc. reflexivity.
  - intros Ht. rewrite Ht. cbn [negb run]. rewrite Hc. reflexivity.
  - intros Ht (name & Hn & Hnt). rewrite Ht. cbn [negb run].
    rewrite Hn. cbn [run]. rewrite Hnt. cbn [negb run]. rewrite Hc.
    reflexivity.
Qed.

(** X14: without storage (the data file is missing or no connection can be
    made) Get and Delete answer 500 with the connection message, and so do
    Create and Update for a body that passes their first check; the world
    stays as it was and no connection is opened. *)
Theorem no_storage_is_500 (w : world) (company_id : Z) (data : json) :
  db_path_exists w = false \/ connect_ok w = false ->
  let refused := (Response 500 (ErrorBody ConnectionFailed), w) in
  get_company company_id w = refused
  /\ delete_company company_id w = refused
  /\ (json_truthy data = true ->
      update_company company_id (Ok data) w = refused)
  /\ (json_truthy data = true ->
      (exists name, json_get data "company" JNull = Ok name
                    /\ json_truthy name = true) ->
      add_company (Ok data) w = refused).
Proof. apply no_storage_refused. Qed.

Lemma no_storage_is_500_witness :
  (db_path_exists offline_world = false \/ connect_ok offline_world = false)
  /\ get_company 1 offline_world
     = (Response 500 (ErrorBody ConnectionFailed), offline_world)
  /\ delete_company 1 offline_world
     = (Response 500 (ErrorBody ConnectionFailed), offline_world)
  /\ update_company 1 (Ok acme_body) offline_world
     = (Response 500 (ErrorBody ConnectionFailed), offline_world)
  /\ add_company (Ok acme_body) offline_world
     = (Response 500 (ErrorBody ConnectionFailed), offline_world).
Proof.
  assert (H : db_path_exists offline_world = false
              \/ connect_ok offline_world = false) by (left; reflexivity).
  assert (Ht : json_truthy acme_body = true) by (vm_compute; reflexivity).
  assert (Hn : exists name, json_get acme_body "company" JNull = Ok name
                            /\ json_truthy name = true).
  { exists (JStr (str_of "Acme")). split; vm_compute; reflexivity. }
  destruct (no_storage_is_500 offline_world 1 acme_body H)
    as (Hg & Hd & Hu & Ha).
  split; [exact H|]. split; [exact Hg|]. split; [exact Hd|].
  split; [exact (Hu Ht)|exact (Ha Ht Hn)].
Defined.

(** Update looks at the body before anything else: a body that is missing
    or empty is answered 400 for every id and every world, also without
    storage, and nothing changes. *)
Lemma update_checks_body_first (w : world) (company_id : Z) (data : json) :
  json_truthy data = false ->
  update_company company_id (Ok data) w
  = (Response 400 (ErrorBody NoUpdateData), w).
Proof.
  intros Hf. unfold update_company. run_handler. rewrite Hf. reflexivity.
Qed.

(** X15: a body that is a JSON value other than an object (and not false
    in a condition) is answered 500, not 400: [data.get] raises
    [AttributeError].  Create raises before it connects, so the world is
    untouched; Update raises after it connected and leaves that connection
    open. *)
Theorem non_object_body_is_500 (w : world) (company_id : Z) (data : json) :
  json_truthy data = true ->
  is_object data = false ->
  add_company (Ok data) w = (server_error AttributeError, w)
  /\ (available w ->
      update_company company_id (Ok data) w
      = (server_error AttributeError,
         set_open_connections (S (open_connections w)) w)).
Proof.
  intros Ht Ho.
  assert (Hg : forall key dflt, json_get data key dflt = Raise AttributeError)
    by (intros; destruct data; try reflexivity; discriminate Ho).
  split.
  - unfold add_company. run_handler. rewrite Ht. cbn [negb run].
    rewrite Hg. reflexivity.
  - intros [He Hc]. unfold update_company. run_handler. rewrite Ht.
    cbn [negb run]. rewrite He, Hc. cbn [negb run].
    unfold update_params, written_columns. cbn [mapM].
    rewrite (Hg "company"). reflexivity.
Qed.

Lemma non_object_body_is_500_witness :
  json_truthy (JArr [JInt 1]) = true
  /\ is_object (JArr [JInt 1]) = false
  /\ available idle_world
  /\ add_company (Ok (JArr [JInt 1])) idle_world
     = (server_error AttributeError, idle_world)
  /\ update_company 1 (Ok (JArr [JInt 1])) idle_world
     = (server_error AttributeError, set_open_connections 1 idle_world).
Proof.
  assert (Ht : json_truthy (JArr [JInt 1]) = true) by reflexivity.
  assert (Ho : is_object (JArr [JInt 1]) = false) by reflexivity.
  assert (Ha : available idle_world) by (split; reflexivity).
  destruct (non_object_body_is_500 idle_world 1 _ Ht Ho) as [Hc Hu].
  split; [exact Ht|]. split; [exact Ho|]. split; [exact Ha|].
  split; [exact Hc|exact (Hu Ha)].
Defined.

(** When [request.get_json()] itself raises, Create and Update answer 500
    with that error and touch neither the storage nor a connection. *)
Lemma unreadable_body_is_500 (w : world) (company_id : Z) (e : exn) :
  add_company (Raise e) w = (server_error e, w)
  /\ update_company company_id (Raise e) w = (server_error e, w).
Proof. split; reflexivity. Qed.

(** A text that holds a lone surrogate, which JSON can carry as an escape,
    cannot be bound: Create answers 500 and leaves its connection open. *)
Example surrogate_text_is_500 :
  add_company (Ok (JObj {[ str_of "company" := JStr [55296%N] ]})) idle_world
  = (server_error UnicodeEncodeError, set_open_connections 1 idle_world).
Proof. vm_compute. reflexivity. Qed.

(** ** What the writes do to the stored rows *)

Lemma has_id_row_id (company_id : Z) (r : row) :
  has_id company_id r = true <-> row_id r = Some company_id.
Proof.
  unfold has_id, row_id.
  destruct (r !! "id") as [[| z | x | s]|]; try (split; discriminate).
  rewrite Z.eqb_eq. split; [intros ->; reflexivity|intros [= ->]; reflexivity].
Qed.

Lemma next_rowid_above (rows : list row) (z : Z) :
  z ∈ omap row_id rows -> z < next_rowid rows.
Proof.
  unfold next_rowid. destruct (omap row_id rows) as [|z0 zs].
  - intros H. inversion H.
  - intros H. apply foldr_max_upper in H. lia.
Qed.

Lemma stored_values_id (values : list pyval) :
  stored_values values !! "id" = None.
Proof.
  unfold stored_values. apply not_elem_of_list_to_map_1.
  intros H. apply list_elem_of_fmap in H. destruct H as ([k v] & Hk & Hin).
  cbn in Hk. subst k. apply elem_of_zip_l in Hin.
  revert Hin. apply (bool_decide_eq_false ("id" ∈ written_columns)).
  vm_compute. reflexivity.
Qed.

(** The update keeps the id of every row. *)
Lemma overwrite_row_id (values : list pyval) (r : row) :
  row_id (stored_values values ∪ r) = row_id r.
Proof.
  unfold row_id. rewrite lookup_union_r by apply stored_values_id.
  reflexivity.
Qed.

Lemma overwrite_has_id (values : list pyval) (company_id i : Z) (r : row) :
  has_id i (if has_id company_id r then stored_values values ∪ r else r)
  = has_id i r.
Proof.
  destruct (has_id company_id r); [|reflexivity].
  unfold has_id. rewrite lookup_union_r by apply stored_values_id.
  reflexivity.
Qed.

(** What a 201 from Create says, for any body. *)
Lemma add_company_201 (w : world) (body : result json) :
  status (add_company body w).1 = 201 ->
  exists data params values,
    body = Ok data
    /\ insert_params data = Ok params
    /\ mapM bind_param params = Ok values
    /\ available w
    /\ add_company body w
       = (Response 201 (CreatedBody CompanyAdded (next_rowid (companies w))),
          set_companies
            (companies w
               ++ [inserted_row (next_rowid (companies w)) values]) w).
Proof.
  unfold add_company. run_handler.
  split_paths; cbn; try discriminate.
  all: intros _; eexists _, _, _.
  all: split; [reflexivity|].
  all: split; [eassumption|]. all: split; [eassumption|].
  all: split; [split; [destruct (db_path_exists w); [reflexivity|discriminate]
                      |assumption]|].
  all: f_equal; destruct w; reflexivity.
Qed.

(** X16: when Create answers 201 it has appended exactly one row: the rows
    stored before are all still there, unchanged and in their order, the
    new row carries the returned id, and no row had that id before. *)
Theorem create_appends_one_row (w : world) (body : result json) :
  status (add_company body w).1 = 201 ->
  exists company_id r,
    (add_company body w).1 = Response 201 (CreatedBody CompanyAdded company_id)
    /\ companies (add_company body w).2 = companies w ++ [r]
    /\ r !! "id" = Some (PInt company_id)
    /\ unknown_id company_id w
    /\ open_connections (add_company body w).2 = open_connections w.
Proof.
  intros H. apply add_company_201 in H.
  destruct H as (data & params & values & _ & _ & _ & _ & ->).
  exists (next_rowid (companies w)), (inserted_row (next_rowid (companies w)) values).
  cbn. split; [reflexivity|]. split; [reflexivity|].
  split; [unfold inserted_row; apply lookup_insert_eq|].
  split; [apply next_rowid_fresh|reflexivity].
Qed.

Lemma create_appends_one_row_witness :
  status (add_company (Ok acme_body) one_company_world).1 = 201
  /\ exists company_id r,
       (add_company (Ok acme_body) one_company_world).1
       = Response 201 (CreatedBody CompanyAdded company_id)
       /\ companies (add_company (Ok acme_body) one_company_world).2
          = companies one_company_world ++ [r]
       /\ r !! "id" = Some (PInt company_id)
       /\ unknown_id company_id one_company_world
       /\ open_connections (add_company (Ok acme_body) one_company_world).2
          = open_connections one_company_world.
Proof.
  assert (H : status (add_company (Ok acme_body) one_company_world).1 = 201)
    by (vm_compute; reflexivity).
  split; [exact H|].
  exact (create_appends_one_row one_company_world (Ok acme_body) H).
Defined.

Lemma zip_lookup {A} (keys : list string) (vals : list A)
      (P : string -> A -> Prop) :
  NoDup keys ->
  Forall2 P keys vals ->
  forall key, key ∈ keys ->
    exists v, (list_to_map (zip keys vals) : gmap string A) !! key = Some v
              /\ P key v.
Proof.
  intros Hnd HF. induction HF as [|k v ks vs Hkv HF IH]; intros key Hin.
  - inversion Hin.
  - apply NoDup_cons in Hnd. destruct Hnd as [Hk Hnd].
    cbn [zip zip_with list_to_map foldr fst snd].
    destruct (decide (key = k)) as [->|Hne].
    + exists v. split; [apply lookup_insert_eq|exact Hkv].
    + apply elem_of_cons in Hin. destruct Hin as [Hin|Hin]; [congruence|].
      destruct (IH Hnd key Hin) as (v' & Hl & Hp).
      exists v'. split; [|exact Hp].
      rewrite lookup_insert_ne by congruence. exact Hl.
Qed.

Lemma zip_lookup_none {A} (keys : list string) (vals : list A) (key : string) :
  key ∉ keys ->
  (list_to_map (zip keys vals) : gmap string A) !! key = None.
Proof.
  intros Hk. apply not_elem_of_list_to_map_1.
  intros H. apply list_elem_of_fmap in H. destruct H as ([k v] & Hkey & Hin).
  cbn in Hkey. subst k. apply elem_of_zip_l in Hin. contradiction.
Qed.

Lemma written_columns_NoDup : NoDup written_columns.
Proof. apply (bool_decide_unpack _). vm_compute. exact I. Qed.

(** The default each written column has in the INSERT. *)
Lemma insert_values_fields (data : json) (params : list json)
      (values : list pyval) :
  insert_params data = Ok params ->
  mapM bind_param params = Ok values ->
  Forall2 (fun key v =>
             stored_field data key
               (if bool_decide (key = "czy_warto_sie_zainteresowac")
                then JInt 0 else JNull) = Ok v)
          written_columns values.
Proof.
  intros Hp Hv.
  destruct data as [| | | | | |m]; try discriminate Hp.
  rewrite insert_params_obj in Hp. injection Hp as <-.
  apply mapM_Ok in Hv.
  repeat match goal with
         | H : Forall2 _ (_ :: _) _ |- _ =>
             apply Forall2_cons_inv_l in H; destruct H as (? & ? & ? & H & ->)
         | H : Forall2 _ [] _ |- _ => apply Forall2_nil_inv_l in H; subst
         end.
  unfold written_columns, stored_field, json_get. unfold_bind.
  repeat constructor; assumption.
Qed.

Lemma update_values_fields (data : json) (params : list json)
      (values : list pyval) :
  update_params data = Ok params ->
  mapM bind_param params = Ok values ->
  Forall2 (fun key v => stored_field data key JNull = Ok v)
          written_columns values.
Proof.
  intros Hp Hv.
  destruct data as [| | | | | |m]; try discriminate Hp.
  unfold update_params, written_columns in Hp. cbn [mapM] in Hp.
  unfold json_get in Hp. unfold_bind. cbn in Hp. injection Hp as <-.
  apply mapM_Ok in Hv.
  repeat match goal with
         | H : Forall2 _ (_ :: _) _ |- _ =>
             apply Forall2_cons_inv_l in H; destruct H as (? & ? & ? & H & ->)
         | H : Forall2 _ [] _ |- _ => apply Forall2_nil_inv_l in H; subst
         end.
  unfold written_columns, stored_field, json_get. unfold_bind.
  repeat constructor; assumption.
Qed.

(** X17: the row a successful Create stores holds, under each of the ten
    written columns, the bound value of the body's field of that name: null
    for a field the body does not have, except the priority, which is
    stored as the integer 0 when the body does not have it. *)
Theorem created_row_holds_the_body (w : world) (data : json) :
  status (add_company (Ok data) w).1 = 201 ->
  exists r,
    last (companies (add_company (Ok data) w).2) = Some r
    /\ forall key, key ∈ written_columns ->
         exists v,
           r !! key = Some v
           /\ stored_field data key
                (if bool_decide (key = "czy_warto_sie_zainteresowac")
                 then JInt 0 else JNull) = Ok v.
Proof.
  intros H. apply add_company_201 in H.
  destruct H as (data' & params & values & [= <-] & Hp & Hv & _ & ->).
  eexists. cbn [snd companies set_companies].
  split; [apply last_snoc|].
  intros key Hkey.
  destruct (zip_lookup written_columns values _ written_columns_NoDup
              (insert_values_fields _ _ _ Hp Hv) key Hkey) as (v & Hl & Hs).
  exists v. split; [|exact Hs].
  unfold inserted_row. rewrite lookup_insert_ne; [exact Hl|].
  intros <-. revert Hkey.
  apply (bool_decide_eq_false ("id" ∈ written_columns)). vm_compute.
  reflexivity.
Qed.

Lemma created_row_holds_the_body_witness :
  status (add_company (Ok acme_body) one_company_world).1 = 201
  /\ exists r,
       last (companies (add_company (Ok acme_body) one_company_world).2)
       = Some r
       /\ forall key, key ∈ written_columns ->
            exists v,
              r !! key = Some v
              /\ stored_field acme_body key
                   (if bool_decide (key = "czy_warto_sie_zainteresowac")
                    then JInt 0 else JNull) = Ok v.
Proof.
  assert (H : status (add_company (Ok acme_body) one_company_world).1 = 201)
    by (vm_compute; reflexivity).
  split; [exact H|].
  exact (created_row_holds_the_body one_company_world acme_body H).
Defined.

(** What is stored for a missing field, and for a missing priority. *)
Example stored_defaults :
  stored_field acme_body "country" JNull = Ok PNone
  /\ stored_field acme_body "czy_warto_sie_zainteresowac" (JInt 0)
     = Ok (PInt 0).
Proof. split; vm_compute; reflexivity. Qed.

Lemma filter_known (company_id : Z) (rows : list row) :
  Exists (fun r => has_id company_id r = true) rows ->
  exists r rest,
    List.filter (has_id company_id) rows = r :: rest
    /\ has_id company_id r = true.
Proof.
  induction 1 as [r rows Hr|r rows _ IH]; cbn.
  - rewrite Hr. eauto.
  - destruct (has_id company_id r) eqn:Hr; eauto.
Qed.

Lemma filter_removes (company_id : Z) (rows : list row) :
  Forall (fun r => has_id company_id r = false)
         (List.filter (fun r => negb (has_id company_id r)) rows).
Proof.
  induction rows as [|r rows IH]; cbn; [constructor|].
  destruct (has_id company_id r) eqn:Hr; cbn; [exact IH|].
  constructor; assumption.
Qed.

Lemma unique_id_once (company_id : Z) (rows : list row) :
  NoDup (omap row_id rows) ->
  (length (List.filter (has_id company_id) rows) <= 1)%nat.
Proof.
  induction rows as [|r rows IH]; cbn; [lia|].
  destruct (has_id company_id r) eqn:Hr.
  - apply has_id_row_id in Hr. rewrite Hr. intros Hnd.
    apply NoDup_cons in Hnd. destruct Hnd as [Hnot _].
    assert (Hf : List.filter (has_id company_id) rows = []).
    { destruct (List.filter (has_id company_id) rows) as [|r' t] eqn:Hf;
        [reflexivity|].
      exfalso. apply Hnot.
      assert (Hin : In r' (List.filter (has_id company_id) rows))
        by (rewrite Hf; left; reflexivity).
      apply filter_In in Hin. destruct Hin as [Hin Hid].
      apply list_elem_of_omap. exists r'.
      split; [apply list_elem_of_In; exact Hin|].
      apply has_id_row_id. exact Hid. }
    rewrite Hf. cbn. lia.
  - intros Hnd. apply IH.
    destruct (row_id r); [apply NoDup_cons in Hnd; tauto|exact Hnd].
Qed.

(** X18: when the storage is available and some stored row has the id,
    Delete answers 200 and removes exactly the rows with that id: the other
    rows stay, unchanged and in their order; afterwards no row has the id,
    so a Get or a second Delete by it answers 404.  When the stored ids are
    pairwise different, exactly one row is gone. *)
Theorem delete_removes_the_row (w : world) (company_id : Z) :
  available w ->
  sqlite_integer company_id = true ->
  known_id company_id w ->
  let out := delete_company company_id w in
  out.1 = Response 200 (MessageBody CompanyDeleted)
  /\ companies out.2
     = List.filter (fun r => negb (has_id company_id r)) (companies w)
  /\ open_connections out.2 = open_connections w
  /\ unknown_id company_id out.2
  /\ get_company company_id out.2
     = (Response 404 (ErrorBody CompanyNotFound), out.2)
  /\ delete_company company_id out.2
     = (Response 404 (ErrorBody CompanyNotFound), out.2)
  /\ (ids_unique w -> S (length (companies out.2)) = length (companies w)).
Proof.
  intros Ha Hid Hk out.
  destruct (filter_known _ _ Hk) as (r & rest & Hf & Hr).
  assert (Hout : out
                 = (Response 200 (MessageBody CompanyDeleted),
                    set_companies
                      (List.filter (fun r => negb (has_id company_id r))
                                   (companies w)) w)).
  { subst out. destruct Ha as [He Hc].
    unfold delete_company. run_handler. rewrite He, Hc. cbn.
    rewrite Hid. cbn. rewrite Hf. reflexivity. }
  rewrite Hout. cbn [fst snd companies set_companies open_connections].
  assert (Ha' : available
                  (set_companies
                     (List.filter (fun r => negb (has_id company_id r))
                                  (companies w)) w)) by exact Ha.
  assert (Hu : unknown_id company_id
                 (set_companies
                    (List.filter (fun r => negb (has_id company_id r))
                                 (companies w)) w))
    by apply filter_removes.
  split; [reflexivity|]. split; [reflexivity|]. split; [reflexivity|].
  split; [exact Hu|].
  split; [apply get_company_unknown; assumption|].
  split; [apply delete_company_unknown; assumption|].
  intros Hnd. pose proof (unique_id_once company_id _ Hnd) as Hle.
  pose proof (List.filter_length (has_id company_id) (companies w)) as Hlen.
  rewrite Hf in Hle, Hlen. cbn [length] in Hle, Hlen. lia.
Qed.

Lemma delete_removes_the_row_witness :
  available two_company_world
  /\ sqlite_integer 1 = true
  /\ known_id 1 two_company_world
  /\ ids_unique two_company_world
  /\ (delete_company 1 two_company_world).1
     = Response 200 (MessageBody CompanyDeleted)
  /\ S (length (companies (delete_company 1 two_company_world).2))
     = length (companies two_company_world).
Proof.
  assert (Ha : available two_company_world) by (split; reflexivity).
  assert (Hi : sqlite_integer 1 = true) by reflexivity.
  assert (Hk : known_id 1 two_company_world)
    by (left; vm_compute; reflexivity).
  assert (Hu : ids_unique two_company_world).
  { apply (bool_decide_unpack _). vm_compute. exact I. }
  destruct (delete_removes_the_row two_company_world 1 Ha Hi Hk)
    as (H1 & _ & _ & _ & _ & _ & H7).
  split; [exact Ha|]. split; [exact Hi|]. split; [exact Hk|].
  split; [exact Hu|]. split; [exact H1|exact (H7 Hu)].
Defined.

Lemma update_company_known (w : world) (company_id : Z) (data : json)
      (params : list json) (values : list pyval) :
  available w ->
  sqlite_integer company_id = true ->
  known_id company_id w ->
  json_truthy data = true ->
  update_params data = Ok params ->
  mapM bind_param params = Ok values ->
  update_company company_id (Ok data) w
  = (Response 200 (MessageBody CompanyUpdated),
     set_companies
       ((fun r => if has_id company_id r then stored_values values ∪ r else r)
          <$> companies w) w).
Proof.
  intros [He Hc] Hid Hk Ht Hp Hv.
  destruct (filter_known _ _ Hk) as (r & rest & Hf & Hr).
  unfold update_company. run_handler. rewrite Ht. cbn.
  rewrite He, Hc. cbn. rewrite Hp. cbn. rewrite Hv. cbn.
  rewrite Hid. cbn. rewrite Hf. reflexivity.
Qed.

(** X19: when the storage is available, some stored row has the id and the
    body can be written, Update answers 200 and overwrites every one of the
    ten written columns of each row with that id by the bound value of the
    body's field (null for a field the body does not have); the id and any
    other column of those rows, every other row, and the number and order
    of the rows stay as they were. *)
Theorem update_overwrites_all_fields (w : world) (company_id : Z)
        (data : json) :
  available w ->
  sqlite_integer company_id = true ->
  known_id company_id w ->
  writable data ->
  let out := update_company company_id (Ok data) w in
  out.1 = Response 200 (MessageBody CompanyUpdated)
  /\ length (companies out.2) = length (companies w)
  /\ open_connections out.2 = open_connections w
  /\ forall (i : nat) (r : row),
       companies w !! i = Some r ->
       exists r',
         companies out.2 !! i = Some r'
         /\ r' !! "id" = r !! "id"
         /\ (has_id company_id r = false -> r' = r)
         /\ (has_id company_id r = true ->
             (forall key, key ∈ written_columns ->
                exists v, r' !! key = Some v
                          /\ stored_field data key JNull = Ok v)
             /\ (forall key, key ∉ written_columns -> r' !! key = r !! key)).
Proof.
  intros Ha Hid Hk (Ht & params & values & Hp & Hv) out. subst out.
  rewrite (update_company_known _ _ _ _ _ Ha Hid Hk Ht Hp Hv).
  cbn [fst snd companies set_companies open_connections].
  split; [reflexivity|]. split; [apply length_fmap|]. split; [reflexivity|].
  intros i r Hr. eexists. rewrite list_lookup_fmap, Hr.
  split; [reflexivity|].
  destruct (has_id company_id r) eqn:Hh.
  - split; [apply lookup_union_r, stored_values_id|].
    split; [discriminate|]. intros _. split.
    + intros key Hkey.
      destruct (zip_lookup written_columns values _ written_columns_NoDup
                  (update_values_fields _ _ _ Hp Hv) key Hkey)
        as (v & Hl & Hs).
      exists v. split; [|exact Hs]. apply lookup_union_Some_l. exact Hl.
    + intros key Hkey. apply lookup_union_r.
      unfold stored_values. apply zip_lookup_none. exact Hkey.
  - split; [reflexivity|]. split; [reflexivity|discriminate].
Qed.

Lemma update_overwrites_all_fields_witness :
  available two_company_world
  /\ sqlite_integer 2 = true
  /\ known_id 2 two_company_world
  /\ writable acme_body
  /\ (update_company 2 (Ok acme_body) two_company_world).1
     = Response 200 (MessageBody CompanyUpdated)
  /\ length (companies (update_company 2 (Ok acme_body) two_company_world).2)
     = length (companies two_company_world).
Proof.
  assert (Ha : available two_company_world) by (split; reflexivity).
  assert (Hi : sqlite_integer 2 = true) by reflexivity.
  assert (Hk : known_id 2 two_company_world)
    by (right; left; vm_compute; reflexivity).
  assert (Hw : writable acme_body).
  { split; [vm_compute; reflexivity|].
    exists (JStr (str_of "Acme") :: repeat JNull 9),
           (PStr (str_of "Acme") :: repeat PNone 9).
    split; vm_compute; reflexivity. }
  destruct (update_overwrites_all_fields two_company_world 2 acme_body
              Ha Hi Hk Hw) as (H1 & H2 & _).
  split; [exact Ha|]. split; [exact Hi|]. split; [exact Hk|].
  split; [exact Hw|]. split; [exact H1|exact H2].
Defined.

(** Get answers 200 with the transform of the first row that has the id. *)
Lemma get_company_found (w : world) (company_id : Z) (r : row) (c : company) :
  available w ->
  sqlite_integer company_id = true ->
  head (List.filter (has_id company_id) (companies w)) = Some r ->
  transform_company_data r = Ok c ->
  get_company company_id w = (Response 200 (CompanyBody c), w).
Proof.
  intros [He Hc] Hid Hh Hr.
  unfold get_company. run_handler. rewrite He, Hc. cbn.
  rewrite Hid. cbn. rewrite Hh. cbn. rewrite Hr. cbn.
  f_equal. destruct w; reflexivity.
Qed.

(** A row whose stored priority is not an infinite float and whose
    description is text or null is transformed, field by field. *)
Lemma stored_row_transforms (r : row) (vp vd : pyval) :
  r !! "czy_warto_sie_zainteresowac" = Some vp ->
  infinite vp = false ->
  r !! "czym_zajmuje_sie_firma" = Some vd ->
  (vd = PNone \/ exists s, vd = PStr s) ->
  exists c,
    transform_company_data r = Ok c
    /\ c_id c = dict_get r "id"
    /\ c_name c = dict_get_or r "company" (PStr [])
    /\ c_boothNumber c = dict_get_or r "stand" (PStr [])
    /\ c_country c = dict_get_or r "country" (PStr [])
    /\ c_rarity c = spec_rarity vp.
Proof.
  intros Hp Hi Hd Hvd.
  assert (Hr : rarity_of_priority (dict_get r "czy_warto_sie_zainteresowac")
               = Ok (spec_rarity vp)).
  { unfold dict_get. rewrite Hp. apply rarity_of_priority_spec. exact Hi. }
  assert (Ht : textual r "czym_zajmuje_sie_firma").
  { unfold textual. rewrite Hd. destruct Hvd as [->|[s ->]]; exact I. }
  unfold transform_company_data. unfold_bind.
  rewrite Hr, (short_description_textual r Ht).
  eexists. split; [reflexivity|]. cbn. repeat split; reflexivity.
Qed.

Lemma stored_field_finite (data : json) (key : string) (dflt : json)
      (v : pyval) :
  stored_field data key dflt = Ok v ->
  (forall x, json_get data key dflt = Ok (JFloat x) ->
             infinite (PFloat x) = false) ->
  infinite v = false.
Proof.
  unfold stored_field. unfold_bind.
  destruct (json_get data key dflt) as [j|e]; [|discriminate].
  intros Hb Hx. apply (bind_param_finite _ _ Hb).
  intros x ->. apply Hx. reflexivity.
Qed.

Lemma stored_field_text (data : json) (key : string) (dflt : json)
      (v : pyval) :
  stored_field data key dflt = Ok v ->
  (forall d, json_get data key dflt = Ok d ->
             d = JNull \/ exists s, d = JStr s) ->
  v = PNone \/ exists s, v = PStr s.
Proof.
  unfold stored_field. unfold_bind.
  destruct (json_get data key dflt) as [j|e]; [|discriminate].
  intros Hb Hd. destruct (Hd j eq_refl) as [->|[s ->]].
  - cbn in Hb. injection Hb as <-. left. reflexivity.
  - apply bind_param_str in Hb. right. exists s. exact Hb.
Qed.

Lemma filter_overwritten (values : list pyval) (company_id : Z)
      (rows : list row) :
  List.filter (has_id company_id)
    ((fun r => if has_id company_id r then stored_values values ∪ r else r)
       <$> rows)
  = (fun r => stored_values values ∪ r)
      <$> List.filter (has_id company_id) rows.
Proof.
  induction rows as [|r rows IH]; cbn; [reflexivity|].
  rewrite overwrite_has_id.
  destruct (has_id company_id r) eqn:Hr; cbn; rewrite IH; reflexivity.
Qed.

(** X20: Update then Get: after a successful Update whose priority is not
    an infinite number and whose description is text or null, Get by the
    same id answers 200 and its name, booth number and country are the
    values the body gave under company, stand and country, null for each
    one the body did not have. *)
Theorem update_then_get (w : world) (company_id : Z) (data : json) :
  available w ->
  sqlite_integer company_id = true ->
  known_id company_id w ->
  writable data ->
  update_transformable data ->
  let w' := (update_company company_id (Ok data) w).2 in
  exists c,
    get_company company_id w' = (Response 200 (CompanyBody c), w')
    /\ stored_field data "company" JNull = Ok (c_name c)
    /\ stored_field data "stand" JNull = Ok (c_boothNumber c)
    /\ stored_field data "country" JNull = Ok (c_country c).
Proof.
  intros Ha Hid Hk (Ht & params & values & Hp & Hv) [Hprio Hdesc] w'. subst w'.
  rewrite (update_company_known _ _ _ _ _ Ha Hid Hk Ht Hp Hv). cbn [snd].
  destruct (filter_known _ _ Hk) as (r & rest & Hf & Hr).
  pose proof (zip_lookup written_columns values _ written_columns_NoDup
                (update_values_fields _ _ _ Hp Hv)) as Hz.
  assert (Hcol : forall key, key ∈ written_columns ->
            exists v, (stored_values values ∪ r) !! key = Some v
                      /\ stored_field data key JNull = Ok v).
  { intros key Hkey. destruct (Hz key Hkey) as (v & Hl & Hs).
    exists v. split; [apply lookup_union_Some_l; exact Hl|exact Hs]. }
  assert (Hin : forall key, bool_decide (key ∈ written_columns) = true ->
                            key ∈ written_columns)
    by (intros key; apply bool_decide_eq_true).
  destruct (Hcol "czy_warto_sie_zainteresowac"
              (Hin "czy_warto_sie_zainteresowac" eq_refl)) as (vp & Lp & Sp).
  destruct (Hcol "czym_zajmuje_sie_firma"
              (Hin "czym_zajmuje_sie_firma" eq_refl)) as (vd & Ld & Sd).
  destruct (Hcol "company" (Hin "company" eq_refl)) as (v1 & L1 & S1).
  destruct (Hcol "stand" (Hin "stand" eq_refl)) as (v2 & L2 & S2).
  destruct (Hcol "country" (Hin "country" eq_refl)) as (v3 & L3 & S3).
  destruct (stored_row_transforms _ vp vd Lp
              (stored_field_finite _ _ _ _ Sp Hprio) Ld
              (stored_field_text _ _ _ _ Sd Hdesc))
    as (c & Hc & _ & Hn & Hb & Hco & _).
  exists c. split.
  - apply (get_company_found _ _ (stored_values values ∪ r)); try assumption.
    cbn [companies set_companies]. rewrite filter_overwritten, Hf.
    reflexivity.
  - rewrite Hn, Hb, Hco. unfold dict_get_or. rewrite L1, L2, L3.
    cbn [default from_option id]. auto.
Qed.

Lemma update_then_get_witness :
  available two_company_world
  /\ sqlite_integer 2 = true
  /\ known_id 2 two_company_world
  /\ writable acme_body
  /\ update_transformable acme_body
  /\ exists c,
       get_company 2 (update_company 2 (Ok acme_body) two_company_world).2
       = (Response 200 (CompanyBody c),
          (update_company 2 (Ok acme_body) two_company_world).2)
       /\ stored_field acme_body "company" JNull = Ok (c_name c)
       /\ stored_field acme_body "stand" JNull = Ok (c_boothNumber c)
       /\ stored_field acme_body "country" JNull = Ok (c_country c).
Proof.
  assert (Ha : available two_company_world) by (split; reflexivity).
  assert (Hi : sqlite_integer 2 = true) by reflexivity.
  assert (Hk : known_id 2 two_company_world)
    by (right; left; vm_compute; reflexivity).
  assert (Hw : writable acme_body).
  { split; [vm_compute; reflexivity|].
    exists (JStr (str_of "Acme") :: repeat JNull 9),
           (PStr (str_of "Acme") :: repeat PNone 9).
    split; vm_compute; reflexivity. }
  assert (Ht : update_transformable acme_body).
  { split.
    - intros x Hx. vm_compute in Hx. discriminate.
    - intros d Hd. vm_compute in Hd. injection Hd as <-. left. reflexivity. }
  split; [exact Ha|]. split; [exact Hi|]. split; [exact Hk|].
  split; [exact Hw|]. split; [exact Ht|].
  exact (update_then_get two_company_world 2 acme_body Ha Hi Hk Hw Ht).
Defined.

(** X21: Create then Get, field by field: when Create answers 201 with an
    id SQLite can hold, for a body whose priority is not an infinite number
    and whose description is text or null, Get by that id answers 200 with
    that id, and its name, booth number and country are the values the body
    gave under company, stand and country, null for each one the body did
    not have. *)
Theorem create_then_get_fields (w w' : world) (data : json) (msg : message)
        (company_id : Z) :
  add_company (Ok data) w = (Response 201 (CreatedBody msg company_id), w') ->
  sqlite_integer company_id = true ->
  transformable data ->
  exists c,
    get_company company_id w' = (Response 200 (CompanyBody c), w')
    /\ c_id c = PInt company_id
    /\ stored_field data "company" JNull = Ok (c_name c)
    /\ stored_field data "stand" JNull = Ok (c_boothNumber c)
    /\ stored_field data "country" JNull = Ok (c_country c).
Proof.
  intros Hadd Hint [Hprio Hdesc].
  apply add_company_created in Hadd.
  destruct Hadd as (params & values & Hp & Hv & Ha & Hid & ->).
  pose proof (zip_lookup written_columns values _ written_columns_NoDup
                (insert_values_fields _ _ _ Hp Hv)) as Hz.
  assert (Hcol : forall key dflt,
            bool_decide (key ∈ written_columns) = true ->
            (if bool_decide (key = "czy_warto_sie_zainteresowac")
             then JInt 0 else JNull) = dflt ->
            exists v, inserted_row company_id values !! key = Some v
                      /\ stored_field data key dflt = Ok v).
  { intros key dflt Hkey <-. apply bool_decide_eq_true in Hkey.
    destruct (Hz key Hkey) as (v & Hl & Hs).
    exists v. split; [|exact Hs].
    unfold inserted_row. rewrite lookup_insert_ne; [exact Hl|].
    intros <-. revert Hkey.
    apply (bool_decide_eq_false ("id" ∈ written_columns)). vm_compute.
    reflexivity. }
  destruct (Hcol "czy_warto_sie_zainteresowac" (JInt 0) eq_refl eq_refl)
    as (vp & Lp & Sp).
  destruct (Hcol "czym_zajmuje_sie_firma" JNull eq_refl eq_refl)
    as (vd & Ld & Sd).
  destruct (Hcol "company" JNull eq_refl eq_refl) as (v1 & L1 & S1).
  destruct (Hcol "stand" JNull eq_refl eq_refl) as (v2 & L2 & S2).
  destruct (Hcol "country" JNull eq_refl eq_refl) as (v3 & L3 & S3).
  destruct (stored_row_transforms _ vp vd Lp
              (stored_field_finite _ _ _ _ Sp Hprio) Ld
              (stored_field_text _ _ _ _ Sd Hdesc))
    as (c & Hc & Hi & Hn & Hb & Hco & _).
  exists c. rewrite get_inserted by assumption. rewrite Hc.
  split; [reflexivity|].
  rewrite Hi, Hn, Hb, Hco. unfold dict_get, dict_get_or.
  rewrite L1, L2, L3. unfold inserted_row. rewrite lookup_insert_eq.
  cbn [default from_option id]. auto.
Qed.

Lemma create_then_get_fields_witness :
  exists w' c,
    add_company (Ok acme_body) one_company_world
    = (Response 201 (CreatedBody CompanyAdded 2), w')
    /\ sqlite_integer 2 = true
    /\ transformable acme_body
    /\ get_company 2 w' = (Response 200 (CompanyBody c), w')
    /\ c_id c = PInt 2
    /\ c_name c = PStr (str_of "Acme")
    /\ c_country c = PNone.
Proof.
  destruct (add_company (Ok acme_body) one_company_world) as [rsp w'] eqn:Hadd.
  assert (Hr : rsp = Response 201 (CreatedBody CompanyAdded 2)).
  { change rsp with (rsp, w').1. rewrite <- Hadd. vm_compute. reflexivity. }
  subst rsp.
  assert (Hi : sqlite_integer 2 = true) by reflexivity.
  assert (Ht : transformable acme_body).
  { split.
    - intros x Hx. vm_compute in Hx. discriminate.
    - intros d Hd. vm_compute in Hd. injection Hd as <-. left. reflexivity. }
  destruct (create_then_get_fields _ _ _ _ _ Hadd Hi Ht)
    as (c & Hg & Hid & Hn & _ & Hc).
  exists w', c. split; [reflexivity|]. split; [exact Hi|].
  split; [exact Ht|]. split; [exact Hg|]. split; [exact Hid|].
  split.
  - assert (E : stored_field acme_body "company" JNull
                = Ok (PStr (str_of "Acme"))) by (vm_compute; reflexivity).
    rewrite E in Hn. injection Hn as <-. reflexivity.
  - assert (E : stored_field acme_body "country" JNull = Ok PNone)
      by (vm_compute; reflexivity).
    rewrite E in Hc. injection Hc as <-. reflexivity.
Defined.

(** ** Unique identifiers *)

Lemma companies_after_add (w : world) (body : result json) :
  companies (add_company body w).2 = companies w
  \/ exists values,
       companies (add_company body w).2
       = companies w ++ [inserted_row (next_rowid (companies w)) values].
Proof.
  unfold add_company. run_handler.
  split_paths; cbn; solve [left; reflexivity | right; eexists; reflexivity].
Qed.

Lemma companies_after_update (w : world) (company_id : Z)
      (body : result json) :
  companies (update_company company_id body w).2 = companies w
  \/ exists values,
       companies (update_company company_id body w).2
       = (fun r => if has_id company_id r
                   then stored_values values ∪ r else r) <$> companies w.
Proof.
  unfold update_company. run_handler.
  split_paths; cbn; solve [left; reflexivity | right; eexists; reflexivity].
Qed.

Lemma companies_after_delete (w : world) (company_id : Z) :
  companies (delete_company company_id w).2 = companies w
  \/ companies (delete_company company_id w).2
     = List.filter (fun r => negb (has_id company_id r)) (companies w).
Proof.
  unfold delete_company. run_handler.
  split_paths; cbn; solve [left; reflexivity | right; reflexivity].
Qed.

Lemma companies_after_get (w : world) (company_id : Z) :
  companies (get_company company_id w).2 = companies w.
Proof.
  unfold get_company. run_handler. split_paths; reflexivity.
Qed.

Lemma row_ids_overwritten (values : list pyval) (company_id : Z)
      (rows : list row) :
  omap row_id
    ((fun r => if has_id company_id r then stored_values values ∪ r else r)
       <$> rows)
  = omap row_id rows.
Proof.
  induction rows as [|r rows IH]; cbn; [reflexivity|].
  rewrite IH. destruct (has_id company_id r); [|reflexivity].
  rewrite overwrite_row_id. reflexivity.
Qed.

Lemma row_ids_filtered (f : row -> bool) (rows : list row) :
  NoDup (omap row_id rows) -> NoDup (omap row_id (List.filter f rows)).
Proof.
  induction rows as [|r rows IH]; cbn; [auto|].
  assert (Hsub : forall z, z ∈ omap row_id (List.filter f rows) ->
                           z ∈ omap row_id rows).
  { intros z Hz. apply list_elem_of_omap in Hz.
    destruct Hz as (r' & Hin & Hr'). apply list_elem_of_omap.
    exists r'. split; [|exact Hr'].
    apply list_elem_of_In. apply list_elem_of_In in Hin.
    apply filter_In in Hin. tauto. }
  destruct (row_id r) as [z|] eqn:Hz.
  - intros Hnd. apply NoDup_cons in Hnd. destruct Hnd as [Hnot Hnd].
    destruct (f r); cbn; [rewrite Hz|]; auto.
    apply NoDup_cons. split; [|auto]. intros H. apply Hnot, Hsub, H.
  - intros Hnd. destruct (f r); cbn; [rewrite Hz|]; auto.
Qed.

Lemma row_ids_appended (rows : list row) (values : list pyval) :
  NoDup (omap row_id rows) ->
  NoDup (omap row_id (rows ++ [inserted_row (next_rowid rows) values])).
Proof.
  intros Hnd. rewrite omap_app. cbn.
  assert (Hr : row_id (inserted_row (next_rowid rows) values)
               = Some (next_rowid rows)).
  { unfold row_id, inserted_row. rewrite lookup_insert_eq. reflexivity. }
  rewrite Hr. apply NoDup_app. split; [exact Hnd|]. split.
  - intros z Hz Hz'. apply list_elem_of_singleton in Hz'. subst z.
    apply next_rowid_above in Hz. lia.
  - apply NoDup_singleton.
Qed.

(** X22: the handlers keep the stored ids pairwise different: if no two
    stored rows share an id before a Get, Create, Update or Delete, none do
    after it, whatever the request and its outcome. *)
Theorem ids_stay_unique (w : world) (company_id : Z) (body : result json) :
  ids_unique w ->
  ids_unique (get_company company_id w).2
  /\ ids_unique (add_company body w).2
  /\ ids_unique (update_company company_id body w).2
  /\ ids_unique (delete_company company_id w).2.
Proof.
  unfold ids_unique. intros Hnd. split; [|split; [|split]].
  - rewrite companies_after_get. exact Hnd.
  - destruct (companies_after_add w body) as [->|[values ->]];
      [exact Hnd|apply row_ids_appended; exact Hnd].
  - destruct (companies_after_update w company_id body) as [->|[values ->]];
      [exact Hnd|rewrite row_ids_overwritten; exact Hnd].
  - destruct (companies_after_delete w company_id) as [->| ->];
      [exact Hnd|apply row_ids_filtered; exact Hnd].
Qed.

Lemma ids_stay_unique_witness :
  ids_unique two_company_world
  /\ ids_unique (add_company (Ok acme_body) two_company_world).2
  /\ ids_unique (update_company 2 (Ok acme_body) two_company_world).2
  /\ ids_unique (delete_company 2 two_company_world).2.
Proof.
  assert (Hu : ids_unique two_company_world).
  { apply (bool_decide_unpack _). vm_compute. exact I. }
  destruct (ids_stay_unique two_company_world 2 (Ok acme_body) Hu)
    as (_ & Ha & Hup & Hd).
  split; [exact Hu|]. split; [exact Ha|]. split; [exact Hup|exact Hd].
Defined.

(** ** Start-up *)

Lemma find_first {A} (f : A -> bool) (l : list A) (x : A) :
  List.find f l = Some x ->
  exists i : nat,
    l !! i = Some x
    /\ f x = true
    /\ forall (j : nat) (y : A), (j < i)%nat -> l !! j = Some y -> f y = false.
Proof.
  induction l as [|a l IH]; cbn; [discriminate|].
  destruct (f a) eqn:Ha.
  - intros [= <-]. exists 0%nat. split; [reflexivity|]. split; [exact Ha|].
    intros j y Hj. lia.
  - intros H. destruct (IH H) as (i & Hi & Hx & Hfirst).
    exists (S i). split; [exact Hi|]. split; [exact Hx|].
    intros [|j] y Hj Hy; cbn in Hy.
    + injection Hy as <-. exact Ha.
    + apply (Hfirst j); [lia|exact Hy].
Qed.

Lemma find_none_iff {A} (f : A -> bool) (l : list A) :
  List.find f l = None <-> forall x, x ∈ l -> f x = false.
Proof.
  induction l as [|a l IH]; cbn.
  - split; [intros _ x Hx; inversion Hx|reflexivity].
  - destruct (f a) eqn:Ha.
    + split; [discriminate|]. intros H.
      rewrite (H a) in Ha by left. discriminate.
    + rewrite IH. split.
      * intros H x Hx. apply elem_of_cons in Hx.
        destruct Hx as [->|Hx]; [exact Ha|apply H, Hx].
      * intros H x Hx. apply H. right. exact Hx.
Qed.

Lemma find_some_exists {A} (f : A -> bool) (l : list A) (x : A) :
  x ∈ l -> f x = true -> exists y, List.find f l = Some y.
Proof.
  intros Hin Hx. destruct (List.find f l) as [y|] eqn:Hf; [eauto|].
  rewrite (proj1 (find_none_iff f l) Hf x Hin) in Hx. discriminate.
Qed.

(** X23: the nine fixed names come first: when at least one of them
    exists, [find_database] returns the first of them that does, in the
    order of the list, whatever else the directory holds. *)
Theorem candidates_come_first (fs : filesystem) (n : pystr) :
  n ∈ possible_names ->
  path_exists fs n = true ->
  exists (i : nat) (c : pystr),
    find_database fs = Some c
    /\ possible_names !! i = Some c
    /\ path_exists fs c = true
    /\ forall (j : nat) (c' : pystr),
         (j < i)%nat -> possible_names !! j = Some c' ->
         path_exists fs c' = false.
Proof.
  intros Hin Hn.
  destruct (find_some_exists _ _ _ Hin Hn) as [c Hc].
  destruct (find_first _ _ _ Hc) as (i & Hi & Hx & Hfirst).
  exists i, c. unfold find_database. rewrite Hc. auto.
Qed.

Lemma candidates_come_first_witness :
  str_of "companies.db" ∈ possible_names
  /\ path_exists two_databases (str_of "companies.db") = true
  /\ find_database two_databases = Some (str_of "companies.db").
Proof.
  assert (Hin : str_of "companies.db" ∈ possible_names)
    by (apply (bool_decide_unpack _); vm_compute; exact I).
  assert (Hn : path_exists two_databases (str_of "companies.db") = true)
    by (vm_compute; reflexivity).
  split; [exact Hin|]. split; [exact Hn|].
  destruct (candidates_come_first two_databases _ Hin Hn)
    as (i & c & Hf & _).
  rewrite Hf. vm_compute in Hf. injection Hf as <-. reflexivity.
Defined.

Lemma filter_elem {A} (f : A -> bool) (l : list A) (x : A) :
  x ∈ List.filter f l <-> x ∈ l /\ f x = true.
Proof. rewrite !list_elem_of_In. apply filter_In. Qed.

Lemma find_database_spec (fs : filesystem) :
  (forall n, find_database fs = Some n ->
             path_exists fs n = true
             /\ (n ∈ possible_names
                 \/ (n ∈ listdir fs /\ is_sqlite_file n = true)))
  /\ (find_database fs = None <->
      (forall n, n ∈ possible_names -> path_exists fs n = false)
      /\ (forall f, f ∈ listdir fs -> is_sqlite_file f = true ->
                    path_exists fs f = false)).
Proof.
  unfold find_database. split.
  - intros n.
    destruct (List.find (path_exists fs) possible_names) as [c|] eqn:Hc.
    + intros [= <-]. apply find_some in Hc. destruct Hc as [Hin Hx].
      split; [exact Hx|]. left. apply list_elem_of_In. exact Hin.
    + intros Hf. apply find_some in Hf. destruct Hf as [Hin Hx].
      split; [exact Hx|]. right. apply filter_elem, list_elem_of_In. exact Hin.
  - destruct (List.find (path_exists fs) possible_names) as [c|] eqn:Hc.
    + split; [discriminate|]. intros [H _]. apply find_some in Hc.
      destruct Hc as [Hin Hx]. rewrite (H c) in Hx; [discriminate|].
      apply list_elem_of_In. exact Hin.
    + rewrite find_none_iff. split.
      * intros H. split; [apply find_none_iff; exact Hc|].
        intros f Hf Hs. apply H. apply filter_elem. auto.
      * intros [_ H] x Hx. apply filter_elem in Hx. destruct Hx. auto.
Qed.

(** X24: what [find_database] returns exists, and is one of the nine fixed
    names or a listed file named [sqlite] or ending in [.db], [.sqlite] or
    [.sqlite3]; it returns nothing exactly when none of the nine names and
    no such listed file exists. *)
Theorem find_database_result (fs : filesystem) :
  (forall n, find_database fs = Some n ->
             path_exists fs n = true
             /\ (n ∈ possible_names
                 \/ (n ∈ listdir fs /\ is_sqlite_file n = true)))
  /\ (find_database fs = None <->
      (forall n, n ∈ possible_names -> path_exists fs n = false)
      /\ (forall f, f ∈ listdir fs -> is_sqlite_file f = true ->
                    path_exists fs f = false)).
Proof. apply find_database_spec. Qed.

Lemma find_database_nonempty (fs : filesystem) (n : pystr) :
  find_database fs = Some n -> nonempty n = true.
Proof.
  intros H. apply (proj1 (find_database_spec fs)) in H.
  destruct H as [_ [H|[_ H]]].
  - revert H. unfold possible_names. cbn [fmap list_fmap].
    rewrite !elem_of_cons, elem_of_nil.
    intros H; repeat (destruct H as [->|H]; [reflexivity|]). destruct H.
  - destruct n; [discriminate H|reflexivity].
Qed.

(** X25: the path chosen at start-up: it is what [find_database] found, and
    then it exists; when nothing was found it is [sqlite], which does not
    exist, and as long as the directory stays as it was every Get and
    Delete is answered 500 with the connection message. *)
Theorem database_path_choice (fs : filesystem) :
  (forall n, find_database fs = Some n ->
             DATABASE_PATH fs = n /\ path_exists fs (DATABASE_PATH fs) = true)
  /\ (find_database fs = None ->
      DATABASE_PATH fs = str_of "sqlite"
      /\ path_exists fs (DATABASE_PATH fs) = false
      /\ forall (w : world) (company_id : Z),
           served_from fs w ->
           get_company company_id w
           = (Response 500 (ErrorBody ConnectionFailed), w)
           /\ delete_company company_id w
              = (Response 500 (ErrorBody ConnectionFailed), w)).
Proof.
  split.
  - intros n Hn. unfold DATABASE_PATH. rewrite Hn.
    rewrite (find_database_nonempty _ _ Hn).
    split; [reflexivity|]. apply (proj1 (find_database_spec fs)) in Hn. tauto.
  - intros Hn.
    assert (Hp : DATABASE_PATH fs = str_of "sqlite")
      by (unfold DATABASE_PATH; rewrite Hn; reflexivity).
    assert (He : path_exists fs (DATABASE_PATH fs) = false).
    { rewrite Hp. apply (proj2 (find_database_spec fs)) in Hn.
      apply (proj1 Hn). left. }
    split; [exact Hp|]. split; [exact He|].
    intros w company_id Hw. unfold served_from in Hw. rewrite He in Hw.
    destruct (no_storage_refused w company_id JNull (or_introl Hw))
      as (Hg & Hd & _).
    split; assumption.
Qed.

(** A directory without a data file, and one with two. *)
Example find_database_examples :
  find_database no_database = None
  /\ find_database two_databases = Some (str_of "companies.db")
  /\ find_database (directory_of (str_of <$> ["app.py"; "old.sqlite3"]))
     = Some (str_of "old.sqlite3").
Proof. repeat split; vm_compute; reflexivity. Qed.
